(** * Jossoor CRM: API handlers and permission predicates

    A shallow embedding of the request handlers of
    [crm/api/notifications.py], [crm/api/mobile_api.py],
    [crm/fcrm/permissions/assign_to.py] and
    [crm/fcrm/permissions/leads_permissions.py], with the properties the
    specification states about them.

    The host framework (document store, session, request object) is
    represented by the record [Frappe.site]: tables are lists of rows, a row
    is a Python dict from column names to values. Handlers that only read
    are functions of the site; handlers that write return the new site next
    to their result; a handler that can raise returns a [Frappe.result].

    Conventions of the model:
    - text is ASCII: [lower], [strip] and [split] act on the ASCII letters
      and white space;
    - a column holds what its type allows: a text column a string or NULL,
      a datetime column a datetime or NULL, a check column an integer;
    - integer arguments of a request ([limit], [page]) are the integers the
      request carries;
    - queries return rows in table order unless the query orders them, and
      an [ORDER BY] keeps the table order of equal keys. *)

From Stdlib Require Import ZArith String Ascii.
From stdpp Require Import gmap strings list sorting.

Local Open Scope string_scope.

(** ** Python string methods, on ASCII text *)

Module PyStr.

Definition is_upper (c : ascii) : bool :=
  (65 <=? nat_of_ascii c)%nat && (nat_of_ascii c <=? 90)%nat.

Definition lower_char (c : ascii) : ascii :=
  if is_upper c then ascii_of_nat (nat_of_ascii c + 32) else c.

(** [str.lower()] *)
Fixpoint lower (s : string) : string :=
  match s with
  | EmptyString => EmptyString
  | String c r => String (lower_char c) (lower r)
  end.

(** The ASCII characters [str.isspace()] accepts. *)
Definition is_space (c : ascii) : bool :=
  let n := nat_of_ascii c in
  ((9 <=? n)%nat && (n <=? 13)%nat) || ((28 <=? n)%nat && (n <=? 32)%nat).

Definition is_empty (s : string) : bool :=
  match s with EmptyString => true | String _ _ => false end.

(** Truthiness of a [str]. *)
Definition truthy (s : string) : bool := negb (is_empty s).

Fixpoint lstrip (s : string) : string :=
  match s with
  | EmptyString => EmptyString
  | String c r => if is_space c then lstrip r else s
  end.

Fixpoint rstrip (s : string) : string :=
  match s with
  | EmptyString => EmptyString
  | String c r =>
      let r' := rstrip r in
      if is_space c && is_empty r' then EmptyString else String c r'
  end.

(** [str.strip()] *)
Definition strip (s : string) : string := rstrip (lstrip s).

(** [str.split(sep)] for a one-character separator: never empty. *)
Fixpoint split_on (sep : ascii) (s : string) : list string :=
  match s with
  | EmptyString => [EmptyString]
  | String c r =>
      if Ascii.eqb c sep then EmptyString :: split_on sep r
      else match split_on sep r with
           | p :: ps => String c p :: ps
           | [] => [String c EmptyString]
           end
  end.

(** [s.split(sep)[0]] *)
Definition split_head (sep : ascii) (s : string) : string :=
  match split_on sep s with
  | p :: _ => p
  | [] => EmptyString
  end.

(** The word that starts at the head of [s] (empty when [s] starts with
    white space) and the words after it. *)
Fixpoint split_ws_go (s : string) : string * list string :=
  match s with
  | EmptyString => (EmptyString, [])
  | String c r =>
      let '(w, ws) := split_ws_go r in
      if is_space c then (EmptyString, if truthy w then w :: ws else ws)
      else (String c w, ws)
  end.

(** [str.split()] without argument: runs of white space separate. *)
Definition split_ws (s : string) : list string :=
  let '(w, ws) := split_ws_go s in
  if truthy w then w :: ws else ws.

(** [str.replace(a, b)] for one-character [a] and [b]. *)
Fixpoint replace_char (a b : ascii) (s : string) : string :=
  match s with
  | EmptyString => EmptyString
  | String c r =>
      String (if Ascii.eqb c a then b else c) (replace_char a b r)
  end.

Fixpoint starts_with (p s : string) : bool :=
  match p, s with
  | EmptyString, _ => true
  | String a p', String b s' => Ascii.eqb a b && starts_with p' s'
  | String _ _, EmptyString => false
  end.

(** [needle in hay] *)
Fixpoint contains (needle hay : string) : bool :=
  starts_with needle hay ||
  match hay with
  | EmptyString => false
  | String _ r => contains needle r
  end.

(** [s[:n]] for [n >= 0] *)
Fixpoint prefix_chars (n : nat) (s : string) : string :=
  match n, s with
  | O, _ => EmptyString
  | S _, EmptyString => EmptyString
  | S n', String c r => String c (prefix_chars n' r)
  end.

(** [sep.join(l)] *)
Fixpoint join (sep : string) (l : list string) : string :=
  match l with
  | [] => EmptyString
  | [x] => x
  | x :: r => x ++ sep ++ join sep r
  end.

End PyStr.

(** ** The framework: values, rows, exceptions, the site *)

Module Frappe.

(** What a column of a row, or a request argument, can hold. *)
Inductive value :=
| VNull
| VBool (b : bool)
| VInt (n : Z)
| VStr (s : string)
| VTime (t : Z).

#[global] Instance value_eq_dec : EqDecision value.
Proof. solve_decision. Defined.

(** Python truthiness: a datetime is always true. *)
Definition truthy (v : value) : bool :=
  match v with
  | VNull => false
  | VBool b => b
  | VInt n => negb (n =? 0)%Z
  | VStr s => PyStr.truthy s
  | VTime _ => true
  end.

(** [a or b] *)
Definition por (a b : value) : value := if truthy a then a else b.

(** [row.get(k)]: a missing key reads as [None]. *)
Definition get (r : gmap string value) (k : string) : value :=
  default VNull (r !! k).

(** [row.get(k) or ""] on a text column (a string or NULL). *)
Definition text (r : gmap string value) (k : string) : string :=
  match get r k with
  | VStr s => s
  | _ => EmptyString
  end.

(** A datetime column. *)
Definition time_of (v : value) : option Z :=
  match v with
  | VTime t => Some t
  | _ => None
  end.

(** The columns a query selects. *)
Definition project (fields : list string) (r : gmap string value)
  : gmap string value :=
  filter (λ kv, kv.1 ∈ fields) r.

(** SQL equality of a column with a string literal: NULL matches nothing. *)
Definition col_is (r : gmap string value) (k v : string) : bool :=
  bool_decide (r !! k = Some (VStr v)).

Inductive exc :=
| ValidationError (msg : string)
| PermissionError (msg : string)
| DoesNotExistError (msg : string)
| TypeError (msg : string)
| DatabaseError (msg : string).

Inductive result (A : Type) :=
| Ok (a : A)
| Raise (e : exc).
Arguments Ok {A} a.
Arguments Raise {A} e.

Definition bind {A B} (m : result A) (k : A → result B) : result B :=
  match m with
  | Ok a => k a
  | Raise e => Raise e
  end.

(** A list comprehension whose body can raise. *)
Fixpoint for_each {A B} (f : A → result B) (l : list A) : result (list B) :=
  match l with
  | [] => Ok []
  | x :: r =>
      bind (f x) (λ y, bind (for_each f r) (λ ys, Ok (y :: ys)))
  end.

(** A [DocField] of a doctype's meta. *)
Record docfield := {
  fieldname : string;
  fieldtype : string;
  options : string;
}.

(** One call to [frappe.desk.form.assign_to.add]. *)
Record assignment := {
  as_doctype : string;
  as_name : string;
  as_assign_to : list string;
  as_description : string;
  as_notify : Z;
}.

(** A filter of a list query: [[field, op, value]]. *)
Inductive db_filter :=
| FilterCmp (field op : string) (v : value)
| FilterIn (field : string) (vs : list string).

Record site := {
  session_user : string;
  (** [frappe.get_roles] *)
  roles : gmap string (list string);
  (** [frappe.has_permission(doctype, "read", name)] for the session user *)
  can_read : string → string → bool;
  (** [tabUser] *)
  users : list (gmap string value);
  (** [tabTeam], [tabMember] and the meta of Member ([None]: unreadable) *)
  teams : list (gmap string value);
  members : list (gmap string value);
  member_meta : option (list docfield);
  (** [tabToDo] *)
  todos : list (gmap string value);
  (** the calls received by the assignment subsystem, oldest first *)
  assignments : list assignment;
  (** [tabNotification Log] and its columns *)
  nlog_columns : gset string;
  nlog_rows : list (gmap string value);
  (** [tabCRM Notification]; [None] when the table does not exist *)
  crm_notifications : option (list (gmap string value));
  (** [tabCRM Task], the field names of its meta, the name the doctype
      gives the next document, and what [insert] rejects *)
  tasks : list (gmap string value);
  task_meta_fields : list string;
  task_naming : list (gmap string value) → string;
  task_insert_error : gmap string value → option exc;
  (** the query engine: one filter on one row, and [ORDER BY] *)
  db_matches : db_filter → gmap string value → bool;
  db_order : string → list (gmap string value) → list (gmap string value);
  (** [frappe.utils.strip_html] *)
  strip_html : string → string;
  (** [frappe.utils.today] *)
  today : string;
  (** the reading of the [k]-th call to [frappe.utils.now_datetime] *)
  now_datetime : nat → Z;
}.

Definition set_assignments (s : site) (a : list assignment) : site :=
  {| session_user := session_user s; roles := roles s;
     can_read := can_read s; users := users s; teams := teams s;
     members := members s; member_meta := member_meta s; todos := todos s;
     assignments := a;
     nlog_columns := nlog_columns s; nlog_rows := nlog_rows s;
     crm_notifications := crm_notifications s; tasks := tasks s;
     task_meta_fields := task_meta_fields s; task_naming := task_naming s;
     task_insert_error := task_insert_error s; db_matches := db_matches s;
     db_order := db_order s; strip_html := strip_html s; today := today s;
     now_datetime := now_datetime s |}.

Definition set_tasks (s : site) (t : list (gmap string value)) : site :=
  {| session_user := session_user s; roles := roles s;
     can_read := can_read s; users := users s; teams := teams s;
     members := members s; member_meta := member_meta s; todos := todos s;
     assignments := assignments s;
     nlog_columns := nlog_columns s; nlog_rows := nlog_rows s;
     crm_notifications := crm_notifications s; tasks := t;
     task_meta_fields := task_meta_fields s; task_naming := task_naming s;
     task_insert_error := task_insert_error s; db_matches := db_matches s;
     db_order := db_order s; strip_html := strip_html s; today := today s;
     now_datetime := now_datetime s |}.

(** [frappe.get_roles(user)] *)
Definition get_roles (s : site) (user : string) : list string :=
  default [] (roles s !! user).

(** [frappe.permissions.has_role(role, user=user)] *)
Definition has_role (s : site) (role user : string) : bool :=
  bool_decide (role ∈ get_roles s user).

(** [frappe.get_value("User", name, field)] *)
Definition get_user_value (s : site) (name : value) (field : string) : value :=
  match name with
  | VStr n =>
      match List.find (λ u, col_is u "name" n) (users s) with
      | Some u => get u field
      | None => VNull
      end
  | _ => VNull
  end.

(** Stable insertion into a list sorted by a decreasing order: [x] goes
    before the first element it is not smaller than. *)
Fixpoint insert_by {A} (ge : A → A → bool) (x : A) (l : list A) : list A :=
  match l with
  | [] => [x]
  | y :: r => if ge x y then x :: y :: r else y :: insert_by ge x r
  end.

(** [list.sort(reverse=True)] and [ORDER BY ... DESC]: equal elements keep
    their order. *)
Fixpoint sort_by {A} (ge : A → A → bool) (l : list A) : list A :=
  match l with
  | [] => []
  | x :: r => insert_by ge x (sort_by ge r)
  end.

(** Decreasing order of datetimes, NULL last. *)
Definition time_ge (a b : option Z) : bool :=
  match a, b with
  | _, None => true
  | None, Some _ => false
  | Some x, Some y => (y <=? x)%Z
  end.

(** [ORDER BY creation DESC] *)
Definition newest_first (rows : list (gmap string value))
  : list (gmap string value) :=
  sort_by (λ r1 r2, time_ge (time_of (get r1 "creation"))
                            (time_of (get r2 "creation"))) rows.

(** [l[:n]], with Python's reading of a negative bound. *)
Definition slice_to {A} (l : list A) (n : Z) : list A :=
  if (0 <=? n)%Z then take (Z.to_nat n) l
  else take (length l - Z.to_nat (- n)) l.

End Frappe.

(** ** crm/api/notifications.py *)

Module Notifications.
Import Frappe.

Definition CRM_DTYPES : gmap string string :=
  {[ "CRM Lead" := "lead"; "CRM Deal" := "deal" ]}.
Definition CRM_ROUTE : gmap string string :=
  {[ "CRM Lead" := "Lead"; "CRM Deal" := "Deal" ]}.

(** Is [col] a column of Notification Log? *)
Definition _has (s : site) (col : string) : bool :=
  bool_decide (col ∈ nlog_columns s).

Definition _seen_column_name (s : site) : option string :=
  if _has s "seen" then Some "seen"
  else if _has s "read" then Some "read"
  else None.

Definition _bool_seen (row : gmap string value) (seen_col : option string)
  : bool :=
  match seen_col with
  | None => false
  | Some c => truthy (default (VInt 0) (row !! c))
  end.

Definition _text_from_nlog (s : site) (row : gmap string value) : string :=
  let txt := PyStr.strip (text row "subject") in
  let txt := if PyStr.truthy txt then txt
             else PyStr.strip (text row "email_content") in
  let out := strip_html s txt in
  if PyStr.truthy out then out else "Notification".

Definition _looks_like_reminder (row : gmap string value) : bool :=
  let t := PyStr.lower (text row "type") in
  let subj := PyStr.lower (text row "subject") in
  bool_decide (t ∈ ["reminder"; "alert"]) || PyStr.contains "remind" subj.

Definition lookup_name (table : gmap string string) (dt : value) : value :=
  match dt with
  | VStr d => if PyStr.truthy d
              then from_option VStr VNull (table !! d) else VNull
  | _ => VNull
  end.

Definition _map_ref_doctype (dt : value) : value := lookup_name CRM_DTYPES dt.
Definition _map_route (dt : value) : value := lookup_name CRM_ROUTE dt.

(** The unified notification: the keys of the dict both sources are
    normalised to. *)
Record portal := {
  p_creation : value;
  p_from_user : value * value;           (* name, full_name *)
  p_type : value;
  p_to_user : value;
  p_read : value;
  p_hash : string;
  p_notification_text : value;
  p_notification_type_doctype : value;
  p_notification_type_doc : value;
  p_reference_doctype : value;
  p_reference_name : value;
  p_route_name : value;
  p_source : string;
  p_name : value;
}.

Definition _nlog_to_portal_dict (s : site) (row : gmap string value)
    (seen_col : option string) : portal :=
  let ref_dt := get row "document_type" in
  let ref_name := get row "document_name" in
  let reference_doctype := _map_ref_doctype ref_dt in
  let route_name := _map_route ref_dt in
  let to_user := por (get row "for_user") (get row "owner") in
  {| p_creation := get row "creation";
     p_from_user := (get row "owner",
                     get_user_value s (get row "owner") "full_name");
     p_type := if _looks_like_reminder row then VStr "reminder"
               else por (get row "type") (VStr "system");
     p_to_user := to_user;
     p_read := VBool (_bool_seen row seen_col);
     p_hash := if _looks_like_reminder row then "#reminder" else "";
     p_notification_text := VStr (_text_from_nlog s row);
     p_notification_type_doctype := ref_dt;
     p_notification_type_doc := ref_name;
     p_reference_doctype := reference_doctype;
     p_reference_name := ref_name;
     p_route_name := route_name;
     p_source := "Notification Log";
     p_name := get row "name" |}.

(** [n] is a [frappe._dict]: a missing attribute reads as [None], so
    [getattr(n, "message", "")] is [None] for a missing or NULL message
    and the [in] test raises. *)
Definition get_hash (n : gmap string value) : result string :=
  bind
    (if bool_decide (get n "type" = VStr "Mention")
        && truthy (get n "notification_type_doc")
     then match get n "notification_type_doc" with
          | VStr d => Ok ("#" ++ d)
          | _ => Raise (TypeError "can only concatenate str to str")
          end
     else Ok "")
    (λ _hash,
      let _hash := if bool_decide (get n "type" = VStr "WhatsApp")
                   then "#whatsapp" else _hash in
      if bool_decide (get n "type" = VStr "Assignment")
         && bool_decide (get n "notification_type_doctype" = VStr "CRM Task")
      then match get n "message" with
           | VStr m => Ok (if PyStr.contains "has been removed by" m
                           then "" else "#tasks")
           | _ => Raise (TypeError "argument is not iterable")
           end
      else Ok _hash).

(** [frappe.get_all("Notification Log", or_filters=..., fields=...,
    order_by="creation desc", limit_page_length=limit)] *)
Definition get_all_nlog (s : site) (or_filters : list (string * string))
    (fields : list string) (limit : Z) : list (gmap string value) :=
  project fields <$>
    take (Z.to_nat limit)
      (newest_first
         (filter (λ r, existsb (λ f, col_is r f.1 f.2) or_filters = true)
                 (nlog_rows s))).

Definition or_filters_for (s : site) (user : string) : list (string * string) :=
  [("for_user", user); ("owner", user)]
  ++ (if _has s "from_user" then [("from_user", user)] else []).

(** [frappe.db.count("CRM Notification", {"to_user": user, "read": 0})] *)
Definition count_legacy_unread (table : list (gmap string value))
    (user : string) : Z :=
  Z.of_nat (length (filter (λ r, col_is r "to_user" user = true
                                 ∧ r !! "read" = Some (VInt 0)) table)).

Definition _get_unseen_count_for (s : site) (user : string) : Z :=
  let seen_col := _seen_column_name s in
  let fields := "name" :: match seen_col with Some c => [c] | None => [] end in
  let or_filters := or_filters_for s user in
  let rows := get_all_nlog s or_filters fields 500 in
  let total :=
    foldl (λ total r, if negb (_bool_seen r seen_col)
                      then (total + 1)%Z else total) 0%Z rows in
  match crm_notifications s with
  | Some table => (total + count_legacy_unread table user)%Z
  | None => total
  end.

Definition get_unseen_count (s : site) : Z :=
  _get_unseen_count_for s (session_user s).

(** Alias kept for backward compatibility. *)
Definition get_unread_count (s : site) : Z := get_unseen_count s.

Definition _list_crm_notifications (s : site) (limit : Z)
  : result (list portal) :=
  match crm_notifications s with
  | None => Raise (DatabaseError "table CRM Notification does not exist")
  | Some table =>
      let notifications :=
        newest_first
          (filter (λ n, col_is n "to_user" (session_user s) = true) table) in
      for_each
        (λ n,
          bind (get_hash n) (λ h,
            let is_deal :=
              bool_decide (get n "reference_doctype" = VStr "CRM Deal") in
            Ok {| p_creation := get n "creation";
                  p_from_user := (get n "from_user",
                                  get_user_value s (get n "from_user")
                                                 "full_name");
                  p_type := get n "type";
                  p_to_user := get n "to_user";
                  p_read := get n "read";
                  p_hash := h;
                  p_notification_text := get n "notification_text";
                  p_notification_type_doctype :=
                    get n "notification_type_doctype";
                  p_notification_type_doc := get n "notification_type_doc";
                  p_reference_doctype :=
                    VStr (if is_deal then "deal" else "lead");
                  p_reference_name := get n "reference_name";
                  p_route_name := VStr (if is_deal then "Deal" else "Lead");
                  p_source := "CRM Notification";
                  p_name := get n "name" |}))
        (slice_to notifications limit)
  end.

(** The keys [out.sort] computes, in list order, before it sorts: every row
    without a creation time reads the clock once. *)
Fixpoint sort_keys (now : nat → Z) (k : nat) (out : list portal)
  : list (Z * portal) :=
  match out with
  | [] => []
  | x :: r =>
      match time_of (p_creation x) with
      | Some t => (t, x) :: sort_keys now k r
      | None => (now k, x) :: sort_keys now (S k) r
      end
  end.

(** [out.sort(key=..., reverse=True)], each row next to its key. *)
Definition sorted_with_keys (s : site) (out : list portal)
  : list (Z * portal) :=
  sort_by (λ a b, (b.1 <=? a.1)%Z) (sort_keys (now_datetime s) 0 out).

Definition nlog_fields (s : site) : list string :=
  ["name"; "subject"; "email_content"; "creation"; "type"; "document_type";
   "document_name"; "for_user"; "owner"]
  ++ (if _has s "from_user" then ["from_user"] else [])
  ++ match _seen_column_name s with Some c => [c] | None => [] end.

(** The merged list before it is sorted and cut. *)
Definition merged (s : site) (limit include_legacy : Z)
  : result (list portal) :=
  let user := session_user s in
  let seen_col := _seen_column_name s in
  let base_rows :=
    get_all_nlog s (or_filters_for s user) (nlog_fields s) (Z.max limit 200) in
  let out := (λ r, _nlog_to_portal_dict s r seen_col) <$> base_rows in
  if negb (include_legacy =? 0)%Z
  then bind (_list_crm_notifications s (Z.max limit 200))
            (λ legacy, Ok (out ++ legacy)%list)
  else Ok out.

Definition list_portal_notifications (s : site) (limit include_legacy : Z)
  : result (list portal) :=
  bind (merged s limit include_legacy)
       (λ out, Ok (slice_to (snd <$> sorted_with_keys s out) limit)).

(** *** What the counting properties speak about *)

(** The log rows of [user]: addressed to, owned by or, where the column
    exists, sent by the user. *)
Definition rows_of (s : site) (user : string) : list (gmap string value) :=
  filter (λ r, r !! "for_user" = Some (VStr user)
               ∨ r !! "owner" = Some (VStr user)
               ∨ ("from_user" ∈ nlog_columns s
                  ∧ r !! "from_user" = Some (VStr user)))
         (nlog_rows s).

(** The rows among [rows] whose normalised flag is false. *)
Definition unseen_in (s : site) (rows : list (gmap string value)) : Z :=
  Z.of_nat (length (filter (λ r, _bool_seen r (_seen_column_name s) = false)
                           rows)).

(** The unread rows of the legacy table, none when there is no table. *)
Definition legacy_unread (s : site) (user : string) : Z :=
  match crm_notifications s with
  | Some table => count_legacy_unread table user
  | None => 0%Z
  end.

(** The unseen log rows owned by or addressed to [user]. *)
Definition unseen_owned_or_addressed (s : site) (user : string) : Z :=
  unseen_in s (filter (λ r, r !! "for_user" = Some (VStr user)
                            ∨ r !! "owner" = Some (VStr user))
                      (nlog_rows s)).

(** [k] is the creation time of [p], or a reading of the clock when [p]
    has none. *)
Definition creation_key (s : site) (k : Z) (p : portal) : Prop :=
  match time_of (p_creation p) with
  | Some t => k = t
  | None => ∃ i, k = now_datetime s i
  end.

End Notifications.

(** ** crm/fcrm/permissions/assign_to.py *)

Module AssignTo.
Import Frappe.

(** The child doctype of a team's roster and its link-to-user column. *)
Definition _member_user_col (s : site) : string * string :=
  match member_meta s with
  | None => ("Member", "user")
  | Some fields =>
      match List.find (λ f, String.eqb (fieldtype f) "Link"
                            && String.eqb (options f) "User") fields with
      | Some f => ("Member", fieldname f)
      | None =>
          match List.find
                  (λ alt, existsb (λ f, String.eqb (fieldname f) alt) fields)
                  ["user"; "member"; "user_id"; "user_email"; "allocated_to"]
          with
          | Some alt => ("Member", alt)
          | None => ("Member", "user")
          end
      end
  end.

(** [user or frappe.session.user] *)
Definition or_session (s : site) (user : string) : string :=
  if PyStr.truthy user then user else session_user s.

Definition _is_privileged (s : site) (user : string) : bool :=
  let user := or_session s user in
  bool_decide (user ∈ ["Administrator"]) || has_role s "System Manager" user.

Definition _is_sales_manager (s : site) (user : string) : bool :=
  has_role s "Sales Manager" (or_session s user).

Definition _is_sales_user (s : site) (user : string) : bool :=
  has_role s "Sales User" (or_session s user).

(** [filter(None, rows)] on plucked user names. *)
Definition truthy_name (v : value) : option string :=
  match v with
  | VStr u => if PyStr.truthy u then Some u else None
  | _ => None
  end.

(** The users that belong to the team led by [team_leader]. *)
Definition _team_members_of (s : site) (team_leader : string) : gset string :=
  match List.find (λ t, col_is t "team_leader" team_leader) (teams s) with
  | None => ∅
  | Some t =>
      match truthy_name (get t "name") with
      | None => ∅
      | Some team =>
          let '(member_dt, member_col) := _member_user_col s in
          let rows :=
            (λ m, get m member_col) <$>
              filter (λ m, col_is m "parent" team = true
                           ∧ col_is m "parenttype" "Team" = true)
                     (members s) in
          list_to_set (omap truthy_name rows)
      end
  end.

(** [frappe.get_all("User", filters=..., fields=[name, full_name,
    user_image])] *)
Definition get_all_users (s : site) (keep : gmap string value → bool)
  : list (gmap string value) :=
  project ["name"; "full_name"; "user_image"] <$> List.filter keep (users s).

Definition enabled (u : gmap string value) : bool :=
  bool_decide (u !! "enabled" = Some (VInt 1)).

Definition value_in_set (v : value) (allowed : gset string) : bool :=
  match v with
  | VStr n => bool_decide (n ∈ allowed)
  | _ => false
  end.

Definition name_in (allowed : gset string) (u : gmap string value) : bool :=
  value_in_set (get u "name") allowed.

Definition get_assignable_users (s : site) (doctype name : string)
  : list (gmap string value) :=
  let me := session_user s in
  if _is_privileged s me then get_all_users s enabled
  else if _is_sales_manager s me then
    let allowed := _team_members_of s me in
    if bool_decide (allowed = ∅) then []
    else get_all_users s (λ u, enabled u && name_in allowed u)
  else [].

(** The assignment subsystem records the call. *)
Definition add_assignment (s : site) (a : assignment) : site :=
  set_assignments s (assignments s ++ [a]).

(** The users of the request that are outside [allowed], in order. *)
Definition illegal_users (allowed : gset string) (users : list string)
  : list string :=
  List.filter (λ u, negb (bool_decide (u ∈ allowed))) users.

(** The role check of [assign_lead], after the read check. *)
Definition check_actor (s : site) (actor : string) (users : list string)
  : result unit :=
  if _is_privileged s actor then Ok tt
  else if _is_sales_manager s actor then
    let allowed := _team_members_of s actor in
    let illegal := illegal_users allowed users in
    match illegal with
    | [] => Ok tt
    | _ :: _ =>
        Raise (PermissionError
                 ("You can only assign to your team members: "
                  ++ PyStr.join ", " illegal))
    end
  else Raise (PermissionError "You are not allowed to assign").

Definition request_of (doctype name : string) (description : option string)
    (u : string) : assignment :=
  {| as_doctype := doctype;
     as_name := name;
     as_assign_to := [u];
     as_description := default "" description;
     as_notify := 1 |}.

(** The response is [{"ok": True, "assigned_to": users}]. *)
Definition assign_lead (s : site) (doctype name : string)
    (users : option (list string)) (description : option string)
  : result (bool * list string) * site :=
  let users := List.filter PyStr.truthy (default [] users) in
  let actor := session_user s in
  if negb (can_read s doctype name)
  then (Raise (PermissionError "Not permitted to access this document"), s)
  else
    match check_actor s actor users with
    | Raise e => (Raise e, s)
    | Ok _ =>
        (Ok (true, users),
         foldl (λ s u, add_assignment s (request_of doctype name description u))
               s users)
    end.

(** The guard on ToDo creation; [doc] is the ToDo. *)
Definition validate_todo_assignment (s : site) (doc : gmap string value)
  : result unit :=
  if negb (truthy (get doc "reference_type"))
     || negb (truthy (get doc "reference_name"))
     || negb (truthy (get doc "owner"))
  then Ok tt
  else
    let actor := or_session s (text doc "assigned_by") in
    if _is_privileged s actor then Ok tt
    else if _is_sales_user s actor
    then Raise (PermissionError "Sales Users cannot assign")
    else if _is_sales_manager s actor then
      let allowed := _team_members_of s actor in
      if value_in_set (get doc "owner") allowed then Ok tt
      else Raise (PermissionError
                    "Managers can only assign to their team members")
    else Ok tt.

End AssignTo.

(** ** crm/fcrm/permissions/leads_permissions.py *)

Module LeadsPermissions.
Import Frappe.

Definition _member_user_col (s : site) : string * string :=
  match member_meta s with
  | None => ("Member", "user")
  | Some fields =>
      match List.find (λ f, String.eqb (fieldtype f) "Link"
                            && String.eqb (options f) "User") fields with
      | Some f => ("Member", fieldname f)
      | None =>
          match List.find
                  (λ alt, existsb (λ f, String.eqb (fieldname f) alt) fields)
                  ["user"; "member"; "user_id"; "user_email"; "allocated_to"]
          with
          | Some alt => ("Member", alt)
          | None => ("Member", "user")
          end
      end
  end.

(** The SQL fragments the list view can be restricted by. The user inside
    is the string the escaped literal denotes. *)
Inductive condition :=
| Never                                             (* 1=0 *)
| AssignedSelf (user : string)
| AssignedTeam (member_dt member_col user : string)
| Or (a b : condition).

(** SQL [=] between two columns: NULL equals nothing. *)
Definition sql_eq (a b : value) : bool :=
  match a, b with
  | VStr x, VStr y => String.eqb x y
  | _, _ => false
  end.

(** The table [tab<doctype>] a member doctype names. *)
Definition table_of (s : site) (member_dt : string)
  : list (gmap string value) :=
  if String.eqb member_dt "Member" then members s else [].

(** [td] is an open ToDo on the document [(dt, name)]. *)
Definition open_todo_on (dt : string) (name : value) (td : gmap string value)
  : bool :=
  col_is td "reference_type" dt
  && sql_eq (get td "reference_name") name
  && col_is td "status" "Open".

(** The meaning of a condition on one row of [tabCRM Lead]. *)
Fixpoint holds (s : site) (lead : gmap string value) (c : condition) : bool :=
  match c with
  | Never => false
  | AssignedSelf user =>
      existsb (λ td, open_todo_on "CRM Lead" (get lead "name") td
                     && col_is td "allocated_to" user)
              (todos s)
  | AssignedTeam member_dt member_col user =>
      existsb (λ m,
        existsb (λ t,
          sql_eq (get m "parent") (get t "name")
          && col_is t "team_leader" user
          && existsb (λ td, open_todo_on "CRM Lead" (get lead "name") td
                            && sql_eq (get td "allocated_to")
                                      (get m member_col))
                     (todos s))
          (teams s))
        (table_of s member_dt)
  | Or a b => holds s lead a || holds s lead b
  end.

(** [None] is no restriction. *)
Definition get_permission_query_conditions (s : site) (user : string)
  : option condition :=
  if negb (PyStr.truthy user) || String.eqb user "Guest" then Some Never
  else if bool_decide ("System Manager" ∈ get_roles s user) then None
  else
    let escaped_user := user in
    let assigned_self := AssignedSelf escaped_user in
    let '(member_dt, member_col) := _member_user_col s in
    let assigned_team := AssignedTeam member_dt member_col escaped_user in
    Some (Or assigned_self assigned_team).

(** Does a list query of [user] return the row [lead]? *)
Definition visible (s : site) (user : string) (lead : gmap string value)
  : bool :=
  match get_permission_query_conditions s user with
  | None => true
  | Some c => holds s lead c
  end.

(** A document as the permission hook receives it. [_assign] is the parsed
    JSON list; [None] stands for an empty or unreadable field, which both
    give the empty list. *)
Record document := {
  doctype : string;
  name : string;
  _assign : option (list string);
}.

(** [SELECT m.col FROM tabMember m JOIN tabTeam t ON m.parent = t.name
    WHERE t.team_leader = user] *)
Definition led_members (s : site) (user : string) : list value :=
  let '(member_dt, member_col) := _member_user_col s in
  m ← table_of s member_dt;
  t ← teams s;
  if sql_eq (get m "parent") (get t "name") && col_is t "team_leader" user
  then [get m member_col] else [].

Definition value_in (v : value) (l : list string) : bool :=
  match v with
  | VStr x => bool_decide (x ∈ l)
  | _ => false
  end.

Definition has_permission (s : site) (doc : document) (ptype user : string)
  : bool :=
  if negb (PyStr.truthy user) || String.eqb user "Guest" then false
  else if bool_decide ("System Manager" ∈ get_roles s user) then true
  else
    let assigned_list := default [] (_assign doc) in
    if bool_decide (user ∈ assigned_list) then true
    else if existsb (λ td, open_todo_on (doctype doc) (VStr (name doc)) td
                           && col_is td "allocated_to" user) (todos s)
    then true
    else
      let members := led_members s user in
      if existsb (λ mem, truthy mem && value_in mem assigned_list) members
      then true
      else
        let in_tuple := List.filter truthy members in
        negb (bool_decide (members = []))
        && negb (bool_decide (in_tuple = []))
        && existsb (λ td, open_todo_on (doctype doc) (VStr (name doc)) td
                          && existsb (sql_eq (get td "allocated_to")) in_tuple)
                   (todos s).

(** *** What the visibility properties speak about *)

(** [user] holds an open assignment on the document [name] of doctype
    [dt]. *)
Definition holds_open_assignment (s : site) (dt name user : string) : Prop :=
  ∃ td, td ∈ todos s
        ∧ td !! "reference_type" = Some (VStr dt)
        ∧ td !! "reference_name" = Some (VStr name)
        ∧ td !! "allocated_to" = Some (VStr user)
        ∧ td !! "status" = Some (VStr "Open").

(** [member] is on the roster of a team that [user] leads. *)
Definition leads (s : site) (user member : string) : Prop :=
  ∃ t m team, t ∈ teams s ∧ m ∈ members s
              ∧ t !! "team_leader" = Some (VStr user)
              ∧ t !! "name" = Some (VStr team)
              ∧ m !! "parent" = Some (VStr team)
              ∧ m !! (_member_user_col s).2 = Some (VStr member).

End LeadsPermissions.

(** ** crm/api/mobile_api.py *)

Module MobileApi.
Import Frappe.

(** *** Tasks *)

(** The fields of [want] the doctype has. *)
Definition _safe_fields (s : site) (want : list string) : list string :=
  let have := (task_meta_fields s ++ ["name"; "modified"])%list in
  List.filter (λ f, bool_decide (f ∈ have)) want.

(** [frappe.get_doc("User", name)]; [None] when it raises. *)
Definition get_user_doc (s : site) (name : string)
  : option (gmap string value) :=
  List.find (λ u, col_is u "name" name) (users s).

(** [frappe.get_doc("CRM Task", name)]; [None] when it raises. *)
Definition get_task_doc (s : site) (name : value)
  : option (gmap string value) :=
  match name with
  | VStr n => List.find (λ t, col_is t "name" n) (tasks s)
  | _ => None
  end.

Record user_data := {
  u_email : value;
  u_name : value;
  u_id : value;
  u_profile_pic : value;
}.

Definition user_data_of (s : site) (email : string) : option user_data :=
  match get_user_doc s email with
  | None => None
  | Some user =>
      Some {| u_email := por (get user "email") (VStr email);
              u_name := por (get user "full_name") (get user "name");
              u_id := get user "name";
              u_profile_pic :=
                por (get user "user_image") (por (get user "photo") VNull) |}
  end.

Definition truthy_name (v : value) : option string :=
  match v with
  | VStr u => if PyStr.truthy u then Some u else None
  | _ => None
  end.

Definition sql_eq (a b : value) : bool :=
  match a, b with
  | VStr x, VStr y => String.eqb x y
  | _, _ => false
  end.

(** The open ToDos of a task name their users. *)
Definition todo_users (s : site) (docname : value) : gset string :=
  let todos :=
    List.filter (λ td, col_is td "reference_type" "CRM Task"
                       && sql_eq (get td "reference_name") docname
                       && col_is td "status" "Open") (todos s) in
  list_to_set (omap (λ td, truthy_name (get td "allocated_to")) todos).

(** Else the task's own [assigned_to] is read from the stored task. *)
Definition own_assignee (s : site) (docname : value) : result (gset string) :=
  match get_task_doc s docname with
  | None => Raise (DoesNotExistError "CRM Task not found")
  | Some task_doc =>
      Ok (match truthy_name (get task_doc "assigned_to") with
          | Some u => {[ u ]}
          | None => ∅
          end)
  end.

(** The assigned users of a task, from the open ToDos or else from the
    task's own [assigned_to]; users that cannot be loaded are skipped. *)
Definition _get_assigned_users (s : site) (docname : value)
  : result (list user_data) :=
  let user_emails := todo_users s docname in
  bind
    (if bool_decide (user_emails = ∅) then own_assignee s docname
     else Ok user_emails)
    (λ user_emails : gset string,
      Ok (omap (user_data_of s) (elements user_emails))).

(** The compact task; [c_due_date] is [None] when the key is absent. *)
Record compact := {
  c_name : value;
  c_title : value;
  c_status : value;
  c_priority : value;
  c_start_date : value;
  c_modified : value;
  c_due_date : option value;
  c_assigned_to : list user_data;
}.

Definition get_compact_task (s : site) (task : gmap string value) : compact :=
  let task_name := get task "name" in
  let assigned :=
    match _get_assigned_users s task_name with
    | Ok (u :: us) => u :: us
    | Ok [] =>
        match truthy_name (get task "assigned_to") with
        | Some assigned_to =>
            match user_data_of s assigned_to with
            | Some u => [u]
            | None => []
            end
        | None => []
        end
    | Raise _ => []
    end in
  {| c_name := task_name;
     c_title :=
       por (get task "title")
           (VStr (PyStr.prefix_chars 50 (text task "description")));
     c_status := get task "status";
     c_priority := get task "priority";
     c_start_date := get task "start_date";
     c_modified := get task "modified";
     c_due_date := match get task "due_date" with
                   | VNull => None
                   | d => Some d
                   end;
     c_assigned_to := assigned |}.

(** [task_doc[k] = v] when [v is not None] *)
Definition set_if_given (k : string) (v : value) (doc : gmap string value)
  : gmap string value :=
  match v with
  | VNull => doc
  | _ => <[k := v]> doc
  end.

(** [frappe.get_doc(task_doc).insert()]: the doctype validates, names and
    stamps the document, and the row is stored. *)
Definition insert_task (s : site) (doc : gmap string value)
  : result (gmap string value) * site :=
  match task_insert_error s doc with
  | Some e => (Raise e, s)
  | None =>
      let task :=
        <["name" := VStr (task_naming s (tasks s))]>
          (<["modified" := VTime (now_datetime s 0)]> doc) in
      (Ok task, set_tasks s (tasks s ++ [task])%list)
  end.

Definition create_task (s : site)
    (title status priority start_date task_type description assigned_to
     due_date : value) : result compact * site :=
  if negb (truthy task_type)
  then (Raise (ValidationError "Task Type is required"), s)
  else
    let status := if negb (truthy status) then VStr "Todo" else status in
    let priority :=
      if negb (truthy priority) then VStr "Medium" else priority in
    let start_date :=
      if negb (truthy start_date) then VStr (today s) else start_date in
    let task_doc : gmap string value :=
      {[ "doctype" := VStr "CRM Task";
         "task_type" := task_type;
         "status" := status;
         "priority" := priority;
         "start_date" := start_date ]} in
    let task_doc := set_if_given "title" title task_doc in
    let task_doc := set_if_given "description" description task_doc in
    let task_doc := set_if_given "assigned_to" assigned_to task_doc in
    let task_doc := set_if_given "due_date" due_date task_doc in
    match insert_task s task_doc with
    | (Raise e, s') => (Raise e, s')
    | (Ok task, s') => (Ok (get_compact_task s' task), s')
    end.

(** [[p.strip() for p in text.split(",") if p.strip()]] *)
Definition csv (text : string) : list string :=
  List.filter PyStr.truthy (PyStr.strip <$> PyStr.split_on "," text).

Definition in_filter (field : string) (v : value) : list db_filter :=
  match v with
  | VStr text =>
      if PyStr.truthy text
      then match csv text with
           | [] => []
           | vs => [FilterIn field vs]
           end
      else []
  | _ => []
  end.

Definition build_filters (date_from date_to importance status : value)
  : list db_filter :=
  ((if truthy date_from then [FilterCmp "start_date" ">=" date_from] else [])
   ++ (if truthy date_to then [FilterCmp "start_date" "<=" date_to] else [])
   ++ in_filter "priority" importance
   ++ in_filter "status" status)%list.

Definition matching (s : site) (filters : list db_filter)
  : list (gmap string value) :=
  List.filter (λ r, forallb (λ f, db_matches s f r) filters) (tasks s).

(** [frappe.get_all("CRM Task", filters=, fields=, order_by=, limit_start=,
    limit_page_length=)] *)
Definition get_all_tasks (s : site) (filters : list db_filter)
    (fields : list string) (order_by : string) (limit_start limit : Z)
  : list (gmap string value) :=
  project fields <$>
    take (Z.to_nat limit)
      (drop (Z.to_nat limit_start) (db_order s order_by (matching s filters))).

(** [frappe.db.count("CRM Task", filters=filters)] *)
Definition count_tasks (s : site) (filters : list db_filter) : Z :=
  Z.of_nat (length (matching s filters)).

Definition base_fields : list string :=
  ["name"; "title"; "status"; "priority"; "start_date"; "due_date";
   "assigned_to"; "modified"; "description"].

(** [cint(limit) or 20] and [cint(page) or 1], raised to 1; the arguments
    are the integers the request carries. *)
Definition page_size_of (limit : Z) : Z :=
  if (limit =? 0)%Z then 20%Z else limit.

Definition page_of (page : Z) : Z :=
  let page := if (page =? 0)%Z then 1%Z else page in
  if (page <? 1)%Z then 1%Z else page.

(** The offset of a page. *)
Definition page_start (limit page : Z) : Z :=
  ((page_of page - 1) * page_size_of limit)%Z.

Record page_response := {
  data : list compact;
  page : Z;
  page_size : Z;
  total : Z;
  has_next : bool;
}.

Definition filter_tasks (s : site) (date_from date_to importance status : value)
    (limit page : Z) (order_by : string) : page_response :=
  let limit := page_size_of limit in
  let page := page_of page in
  let start := ((page - 1) * limit)%Z in
  let filters := build_filters date_from date_to importance status in
  let fields := _safe_fields s base_fields in
  let tasks := get_all_tasks s filters fields order_by start limit in
  let total := count_tasks s filters in
  let data := get_compact_task s <$> tasks in
  let has_next := (start + Z.of_nat (length data) <? total)%Z in
  {| data := data;
     page := page;
     page_size := limit;
     total := total;
     has_next := has_next |}.

(** *** OAuth configuration *)

(** A scalar of [site_config.json]. *)
Inductive conf_scalar :=
| CNull
| CBool (b : bool)
| CNum (n : Z)
| CStr (s : string).

(** A value of [site_config.json]: a scalar, a list or an object. *)
Inductive conf_value :=
| CScalar (c : conf_scalar)
| CList (l : list conf_scalar)
| CObj (l : list (string * conf_scalar)).

Definition conf_truthy (v : conf_value) : bool :=
  match v with
  | CScalar CNull => false
  | CScalar (CBool b) => b
  | CScalar (CNum n) => negb (n =? 0)%Z
  | CScalar (CStr s) => PyStr.truthy s
  | CList l => match l with [] => false | _ => true end
  | CObj l => match l with [] => false | _ => true end
  end.

(** The single document Mobile OAuth Settings; an empty string is an unset
    field. *)
Record oauth_settings := {
  client_id : string;
  scope : string;
  redirect_uri : string;
}.

(** [frappe.local], [frappe.conf] and the OAuth side of the database. *)
Record local := {
  (** the headers of [frappe.local.request]; [None]: no request *)
  request : option (gmap string string);
  (** [frappe.local.site] *)
  site_name : option string;
  (** [frappe.get_site_config()]; [None] when it raises *)
  site_config : option (gmap string conf_value);
  (** [frappe.local.site_path] and whether the directory exists *)
  site_path : option string;
  site_path_exists : bool;
  (** [frappe.conf.db_name] and whether [SELECT 1] succeeds *)
  db_name : option string;
  db_alive : bool;
  (** the doctypes installed *)
  doctypes : gset string;
  (** the settings document; [None] when it cannot be loaded *)
  settings : option oauth_settings;
  (** the OAuth clients created, by client id, and the id the framework
      generates for the next one *)
  oauth_clients : list string;
  generated_client_id : string;
}.

Definition set_settings (l : local) (st : oauth_settings)
    (clients : list string) : local :=
  {| request := request l; site_name := site_name l;
     site_config := site_config l; site_path := site_path l;
     site_path_exists := site_path_exists l; db_name := db_name l;
     db_alive := db_alive l; doctypes := doctypes l;
     settings := Some st; oauth_clients := clients;
     generated_client_id := generated_client_id l |}.

(** [headers.get(k)], when it is a non-empty string. *)
Definition header (headers : gmap string string) (k : string)
  : option string :=
  match headers !! k with
  | Some h => if PyStr.truthy h then Some h else None
  | None => None
  end.

(** The host of the request before it is normalised: the first entry of
    X-Forwarded-Host when that header is there, else Host. *)
Definition request_host (headers : gmap string string) : option string :=
  match header headers "X-Forwarded-Host" with
  | Some host =>
      Some (if PyStr.contains "," host
            then PyStr.strip (PyStr.split_head "," host) else host)
  | None => header headers "Host"
  end.

(** [host.lower().split(":")[0].strip()] *)
Definition normalize_host (host : string) : string :=
  PyStr.strip (PyStr.split_head ":" (PyStr.lower host)).

(** [d.lower().strip()] *)
Definition lower_strip (d : string) : string := PyStr.strip (PyStr.lower d).

(** [[d.lower().strip() for d in l]]; [None] when an entry is not a
    string. *)
Fixpoint lower_strip_all (l : list conf_scalar) : option (list string) :=
  match l with
  | [] => Some []
  | CStr d :: r => cons (lower_strip d) <$> lower_strip_all r
  | _ :: _ => None
  end.

(** The part of the domain list that comes from the [domains] key. *)
Definition domains_of (cfg : gmap string conf_value) : option (list string) :=
  match cfg !! "domains" with
  | Some (CList l) => lower_strip_all l
  | Some (CScalar (CStr domains_str)) =>
      Some (lower_strip <$>
              PyStr.split_ws (PyStr.replace_char "," " " domains_str))
  | _ => Some []
  end.

(** The domains the site configuration names: [domains], then
    [host_name] when it is not among them. [None] when reading them
    raises. *)
Definition configured_domains (cfg : gmap string conf_value)
  : option (list string) :=
  allowed_domains ← domains_of cfg;
  match cfg !! "host_name" with
  | Some v =>
      if conf_truthy v
      then match v with
           | CScalar (CStr h) =>
               let host_name := lower_strip h in
               Some (if bool_decide (host_name ∈ allowed_domains)
                     then allowed_domains
                     else allowed_domains ++ [host_name])%list
           | _ => None
           end
      else Some allowed_domains
  | None => Some allowed_domains
  end.

Definition msg_no_request : string :=
  "Request information is not available. Please ensure you are accessing a valid Frappe site.".
Definition msg_no_host : string :=
  "Host header is missing. Please ensure you are accessing via a valid domain.".
Definition msg_no_site : string :=
  "Site information is not available. Please contact system administrator.".
Definition msg_no_site_ensure : string :=
  "Site information is not available. Please ensure you are accessing a valid Frappe site.".
Definition msg_config_error : string :=
  "Site configuration error. Access denied. Please contact administrator.".
Definition msg_denied (host site_name : string) : string :=
  "Access denied: The domain '" ++ host
  ++ "' is not configured for this site. Please use a valid domain for site '"
  ++ site_name ++ "'.".

(** The domain list the host is checked against: the configured domains,
    or the site name alone when none is configured or the configuration
    cannot be read, and then only for a host equal to it. *)
Definition allowed_domains_for (l : local) (host site_name : string)
  : result (list string) :=
  let site_name_lower := lower_strip site_name in
  let on_exception :=
    if PyStr.truthy site_name_lower && String.eqb host site_name_lower
    then Ok [site_name_lower]
    else Raise (ValidationError msg_config_error) in
  match site_config l with
  | None => on_exception
  | Some cfg =>
      match configured_domains cfg with
      | None => on_exception
      | Some [] =>
          if String.eqb host site_name_lower then Ok [site_name_lower]
          else on_exception
      | Some allowed_domains => Ok allowed_domains
      end
  end.

Definition _validate_host (l : local) : result unit :=
  match request l with
  | None => Raise (ValidationError msg_no_request)
  | Some headers =>
      match request_host headers with
      | None => Raise (ValidationError msg_no_host)
      | Some host =>
          if negb (PyStr.truthy host)
          then Raise (ValidationError msg_no_host)
          else
            let host := normalize_host host in
            match site_name l with
            | None => Raise (ValidationError msg_no_site)
            | Some site_name =>
                if negb (PyStr.truthy site_name)
                then Raise (ValidationError msg_no_site)
                else
                  bind (allowed_domains_for l host site_name)
                    (λ allowed_domains,
                      if bool_decide (host ∈ allowed_domains) then Ok tt
                      else Raise (ValidationError
                                    (msg_denied host site_name)))
            end
      end
  end.

Definition msg_provider : string :=
  "OAuth Provider is not available on this site. Please contact system administrator.".
Definition msg_failed : string :=
  "Failed to retrieve OAuth configuration. Please contact system administrator.".
Definition msg_incomplete : string :=
  "OAuth configuration is incomplete. Please contact system administrator.".
Definition default_redirect_uri : string := "app.trust://oauth2redirect".
Definition default_scope : string := "all openid".

Definition exc_message (e : exc) : string :=
  match e with
  | ValidationError m | PermissionError m | DoesNotExistError m
  | TypeError m | DatabaseError m => m
  end.

(** The settings document, with an OAuth client created for it when it has
    no client id yet. *)
Definition _ensure_mobile_oauth_settings (l : local)
  : result oauth_settings * local :=
  match site_name l with
  | None => (Raise (ValidationError msg_no_site_ensure), l)
  | Some site =>
      if negb (PyStr.truthy site)
      then (Raise (ValidationError msg_no_site_ensure), l)
      else if match site_path l with
              | Some p => PyStr.truthy p && negb (site_path_exists l)
              | None => false
              end
      then (Raise (ValidationError
                     ("Site '" ++ site
                      ++ "' is not configured in this Frappe bench. "
                      ++ "Please contact system administrator or use a valid site domain.")),
            l)
      else if negb (match db_name l with
                    | Some n => PyStr.truthy n
                    | None => false
                    end && db_alive l)
      then (Raise (ValidationError
                     ("Site '" ++ site ++ "' is not properly configured. "
                      ++ "Database connection failed. "
                      ++ "Please contact system administrator.")), l)
      else if negb (bool_decide ("Mobile OAuth Settings" ∈ doctypes l))
      then (Raise (ValidationError
                     ("Mobile OAuth Settings DocType is not available on site '"
                      ++ site ++ "'. Please run 'bench --site " ++ site
                      ++ " migrate' to create it.")), l)
      else
        let st := default {| client_id := ""; scope := "";
                             redirect_uri := "" |} (settings l) in
        let l := set_settings l st (oauth_clients l) in
        if PyStr.truthy (client_id st) then (Ok st, l)
        else if negb (bool_decide ("OAuth Client" ∈ doctypes l))
        then (Raise (ValidationError msg_provider), l)
        else
          let redirect := default_redirect_uri in
          let st' := {| client_id := generated_client_id l;
                        scope := "all openid";
                        redirect_uri := redirect |} in
          (Ok st', set_settings l st'
                     (oauth_clients l ++ [generated_client_id l])%list)
  end.

(** The response [{client_id, scope, redirect_uri}]. *)
Definition get_oauth_config (l : local) : result oauth_settings * local :=
  match _validate_host l with
  | Raise e => (Raise e, l)
  | Ok _ =>
      match _ensure_mobile_oauth_settings l with
      | (Raise e, l') =>
          (Raise (ValidationError
                    (if PyStr.contains "OAuth Provider" (exc_message e)
                     then msg_provider else msg_failed)), l')
      | (Ok st, l') =>
          if negb (PyStr.truthy (client_id st))
          then (Raise (ValidationError msg_incomplete), l')
          else
            (Ok {| client_id := client_id st;
                   scope := if PyStr.truthy (scope st) then scope st
                            else default_scope;
                   redirect_uri := if PyStr.truthy (redirect_uri st)
                                   then redirect_uri st
                                   else default_redirect_uri |}, l')
      end
  end.

(** *** What the host properties speak about *)

(** The domains the site configuration names; [None] when it cannot be
    read. *)
Definition explicit_domains (l : local) : option (list string) :=
  match site_config l with
  | None => None
  | Some cfg => configured_domains cfg
  end.

(** The test a normalised host has to pass on a site named [site]. *)
Definition host_accepted (l : local) (host site : string) : Prop :=
  match explicit_domains l with
  | Some (d :: ds) => host ∈ d :: ds
  | Some [] => host = lower_strip site
  | None => host = lower_strip site ∧ host ≠ ""
  end.

End MobileApi.


(** ** Concrete sites *)

Module Examples.
Import Frappe.

Definition site_with (user : string) (user_roles : gmap string (list string))
    (readable : bool)
    (user_rows team_rows member_rows todo_rows : list (gmap string value))
    (columns : gset string) (log : list (gmap string value))
    (legacy : option (list (gmap string value))) : site :=
  {| session_user := user;
     roles := user_roles;
     can_read := λ _ _, readable;
     users := user_rows;
     teams := team_rows;
     members := member_rows;
     member_meta := Some [ {| fieldname := "user"; fieldtype := "Link";
                              options := "User" |} ];
     todos := todo_rows;
     assignments := [];
     nlog_columns := columns;
     nlog_rows := log;
     crm_notifications := legacy;
     tasks := [];
     task_meta_fields := ["title"; "status"; "priority"; "start_date";
                          "due_date"; "assigned_to"; "description";
                          "task_type"];
     task_naming := λ _, "TASK-0001";
     task_insert_error := λ _, None;
     db_matches := λ _ _, true;
     db_order := λ _ rows, rows;
     strip_html := λ t, t;
     today := "2025-01-01";
     now_datetime := λ k, (1000 + Z.of_nat k)%Z |}.

(** A log row addressed to [user], created at [t], with its [seen] flag. *)
Definition log_row (name user : string) (t seen : Z) : gmap string value :=
  {[ "name" := VStr name; "for_user" := VStr user; "owner" := VStr "system";
     "creation" := VTime t; "seen" := VInt seen;
     "subject" := VStr "New lead"; "type" := VStr "Alert" ]}.

(** 501 unseen log rows of one user, and no legacy table. *)
Definition busy_site : site :=
  site_with "amal@example.com" ∅ true [] [] [] [] {[ "seen" ]}
            (replicate 501 (log_row "n" "amal@example.com" 5 0)) None.

(** Three log rows of one user. *)
Definition three_rows_site : site :=
  site_with "amal@example.com" ∅ true [] [] [] [] {[ "seen" ]}
            [ log_row "n1" "amal@example.com" 10 0;
              log_row "n2" "amal@example.com" 30 1;
              log_row "n3" "amal@example.com" 20 0 ]
            (Some [ {[ "name" := VStr "c1";
                       "to_user" := VStr "amal@example.com";
                       "creation" := VTime 25; "read" := VInt 0;
                       "type" := VStr "Mention" ]} ]).

(** The page [list_portal_notifications] gives on that site for limit 2,
    legacy rows included. *)
Definition three_rows_page : list Notifications.portal :=
  match Notifications.list_portal_notifications three_rows_site 2 1 with
  | Ok out => out
  | Raise _ => []
  end.

Definition user_row (name : string) (is_enabled : Z) : gmap string value :=
  {[ "name" := VStr name; "full_name" := VStr name; "enabled" := VInt is_enabled;
     "user_image" := VNull; "email" := VStr name ]}.

Definition member_row (team user : string) : gmap string value :=
  {[ "parent" := VStr team; "parenttype" := VStr "Team"; "user" := VStr user ]}.

Definition open_todo (dt name user : string) : gmap string value :=
  {[ "reference_type" := VStr dt; "reference_name" := VStr name;
     "allocated_to" := VStr user; "status" := VStr "Open" ]}.

(** A Sales Manager who leads the team of Bassam and Dina; Omar is in no
    team and Dina is disabled. [readable] is the manager's read permission
    on documents. *)
Definition manager_site (readable : bool) : site :=
  site_with "mona@example.com"
            {[ "mona@example.com" := ["Sales Manager"];
               "bassam@example.com" := ["Sales User"] ]}
            readable
            [ user_row "mona@example.com" 1; user_row "bassam@example.com" 1;
              user_row "dina@example.com" 0; user_row "omar@example.com" 1 ]
            [ {[ "name" := VStr "Team A";
                 "team_leader" := VStr "mona@example.com" ]} ]
            [ member_row "Team A" "bassam@example.com";
              member_row "Team A" "dina@example.com" ]
            [ open_todo "CRM Lead" "LEAD-1" "bassam@example.com";
              open_todo "CRM Lead" "LEAD-2" "Guest" ]
            ∅ [] None.

Definition task_row (name status : string) : gmap string value :=
  {[ "name" := VStr name; "title" := VStr "Call the client";
     "status" := VStr status; "priority" := VStr "High";
     "start_date" := VStr "2025-01-02"; "modified" := VTime 7 ]}.

(** A site with three tasks. *)
Definition tasks_site : site :=
  set_tasks (manager_site true)
            [ task_row "TASK-1" "Todo"; task_row "TASK-2" "Todo";
              task_row "TASK-3" "Done" ].

(** A request for the site [crm.example.com] whose configuration names
    [domains]; the settings document holds a client id. *)
Definition oauth_local (host : string) (cfg : gmap string MobileApi.conf_value)
  : MobileApi.local :=
  {| MobileApi.request := Some {[ "Host" := host ]};
     MobileApi.site_name := Some "crm.example.com";
     MobileApi.site_config := Some cfg;
     MobileApi.site_path := Some "/bench/sites/crm.example.com";
     MobileApi.site_path_exists := true;
     MobileApi.db_name := Some "_crm";
     MobileApi.db_alive := true;
     MobileApi.doctypes := {[ "Mobile OAuth Settings"; "OAuth Client" ]};
     MobileApi.settings :=
       Some {| MobileApi.client_id := "abc123";
               MobileApi.scope := "all openid";
               MobileApi.redirect_uri := "app.trust://oauth2redirect" |};
     MobileApi.oauth_clients := ["abc123"];
     MobileApi.generated_client_id := "def456" |}.

End Examples.

(** ** crm/api/notifications.py: the handlers that write, and the raw list *)

Module NotificationsHandlers.
Import Frappe Notifications.

Definition set_nlog_rows (s : site) (rows : list (gmap string value)) : site :=
  {| session_user := session_user s; roles := roles s;
     can_read := can_read s; users := users s; teams := teams s;
     members := members s; member_meta := member_meta s; todos := todos s;
     assignments := assignments s;
     nlog_columns := nlog_columns s; nlog_rows := rows;
     crm_notifications := crm_notifications s; tasks := tasks s;
     task_meta_fields := task_meta_fields s; task_naming := task_naming s;
     task_insert_error := task_insert_error s; db_matches := db_matches s;
     db_order := db_order s; strip_html := strip_html s; today := today s;
     now_datetime := now_datetime s |}.

Definition set_crm_notifications (s : site)
    (table : option (list (gmap string value))) : site :=
  {| session_user := session_user s; roles := roles s;
     can_read := can_read s; users := users s; teams := teams s;
     members := members s; member_meta := member_meta s; todos := todos s;
     assignments := assignments s;
     nlog_columns := nlog_columns s; nlog_rows := nlog_rows s;
     crm_notifications := table; tasks := tasks s;
     task_meta_fields := task_meta_fields s; task_naming := task_naming s;
     task_insert_error := task_insert_error s; db_matches := db_matches s;
     db_order := db_order s; strip_html := strip_html s; today := today s;
     now_datetime := now_datetime s |}.

(** A message handed to [frappe.publish_realtime]: the event, the type and
    count of its payload, and the user it goes to. *)
Record publish := {
  pub_event : string;
  pub_type : string;
  pub_unseen : Z;
  pub_user : string;
}.

(** The count is computed when the message is built, on the site as the
    handler has left it. *)
Definition _broadcast_count (s : site) (user : string) : publish :=
  {| pub_event := "crm_portal_notification";
     pub_type := "count";
     pub_unseen := _get_unseen_count_for s user;
     pub_user := user |}.

(** What a write through the framework stamps on a row. *)
Definition stamp (s : site) (r : gmap string value) : gmap string value :=
  <["modified" := VTime (now_datetime s 0)]>
    (<["modified_by" := VStr (session_user s)]> r).

(** [frappe.db.set_value(doctype, name, field, v)] on a table: the rows
    called [name] get the field and the stamps. *)
Definition write_row (s : site) (name field : string) (v : value)
    (r : gmap string value) : gmap string value :=
  if col_is r "name" name then <[field := v]> (stamp s r) else r.

Definition db_set_value (s : site) (rows : list (gmap string value))
    (name field : string) (v : value) : list (gmap string value) :=
  write_row s name field v <$> rows.

(** [doc = frappe.get_doc(doctype, name); doc.save()] with nothing stored
    changed: the rows called [name] get the stamps. *)
Definition db_touch (s : site) (rows : list (gmap string value))
    (name : string) : list (gmap string value) :=
  (λ r, if col_is r "name" name then stamp s r else r) <$> rows.

Definition exists_named (rows : list (gmap string value)) (name : string)
  : bool :=
  existsb (λ r, col_is r "name" name) rows.

Definition msg_not_found (doctype name : string) : string :=
  doctype ++ " " ++ name ++ " not found".

(** The Notification Log branch, shared by [mark_seen] and
    [mark_portal_seen]; the message goes to [user]. *)
Definition mark_log_seen (s : site) (name user : string)
  : result unit * site * list publish :=
  match _seen_column_name s with
  | Some seen_col =>
      let s' := set_nlog_rows s
                  (db_set_value s (nlog_rows s) name seen_col (VInt 1)) in
      (Ok tt, s', [_broadcast_count s' user])
  | None =>
      if exists_named (nlog_rows s) name
      then
        let s' := set_nlog_rows s (db_touch s (nlog_rows s) name) in
        (Ok tt, s', [_broadcast_count s' user])
      else
        (Raise (DoesNotExistError (msg_not_found "Notification Log" name)),
         s, [])
  end.

(** The response is [{"ok": True}]. *)
Definition mark_portal_seen (s : site) (name source : string)
  : result unit * site * list publish :=
  if negb (PyStr.truthy name)
  then (Raise (ValidationError "Notification name is required"), s, [])
  else
    let user := session_user s in
    if String.eqb source "Notification Log" then mark_log_seen s name user
    else if String.eqb source "CRM Notification" then
      match crm_notifications s with
      | None =>
          (Raise (DatabaseError "table CRM Notification does not exist"),
           s, [])
      | Some table =>
          if exists_named table name
          then
            let s' := set_crm_notifications s
                        (Some (db_set_value s table name "read" (VInt 1))) in
            (Ok tt, s', [_broadcast_count s' user])
          else
            (Raise (DoesNotExistError
                      (msg_not_found "CRM Notification" name)), s, [])
      end
    else (Raise (ValidationError ("Unknown source: " ++ source)), s, []).

Definition mark_seen (s : site) (name : string)
  : result unit * site * list publish :=
  if negb (PyStr.truthy name)
  then (Raise (ValidationError "Notification name is required"), s, [])
  else mark_log_seen s name (session_user s).

(** One row of [list_logs]: the flag under [seen], the flag's own column
    removed. *)
Definition list_logs_row (seen_col : option string) (r : gmap string value)
  : gmap string value :=
  let d := <["seen" := VBool (_bool_seen r seen_col)]> r in
  match seen_col with
  | Some c => if bool_decide (is_Some (d !! c)) then delete c d else d
  | None => d
  end.

(** [limit_page_length=limit]: a zero limit is no limit. *)
Definition list_logs (s : site) (limit : Z) : list (gmap string value) :=
  let user := session_user s in
  let seen_col := _seen_column_name s in
  let rows :=
    if (limit =? 0)%Z
    then project (nlog_fields s) <$>
           newest_first
             (filter (λ r, existsb (λ f, col_is r f.1 f.2)
                                   (or_filters_for s user) = true)
                     (nlog_rows s))
    else get_all_nlog s (or_filters_for s user) (nlog_fields s) limit in
  list_logs_row seen_col <$> rows.

(** The old endpoint reads the legacy table only. *)
Definition get_notifications (s : site) : result (list portal) :=
  _list_crm_notifications s 50.

(** The rows [mark_as_read] fetches: unread, addressed to [user] and, when
    [doc] is given, about [doc]. *)
Definition to_mark (table : list (gmap string value)) (user doc : string)
  : list (gmap string value) :=
  filter (λ r, col_is r "to_user" user = true
               ∧ r !! "read" = Some (VInt 0)
               ∧ (PyStr.truthy doc = true →
                  col_is r "comment" doc = true
                  ∨ col_is r "notification_type_doc" doc = true))
         table.

(** The name of a fetched row; loading a document without a name raises. *)
Definition row_name (r : gmap string value) : result string :=
  match get r "name" with
  | VStr n => Ok n
  | _ => Raise (DoesNotExistError "CRM Notification None not found")
  end.

(** An exception ends the request, and what it wrote is rolled back. *)
Definition mark_as_read (s : site) (user doc : string)
  : result bool * site * list publish :=
  let user := if PyStr.truthy user then user else session_user s in
  match crm_notifications s with
  | None =>
      (Raise (DatabaseError "table CRM Notification does not exist"), s, [])
  | Some table =>
      match for_each row_name (to_mark table user doc) with
      | Raise e => (Raise e, s, [])
      | Ok names =>
          let table' :=
            foldl (λ t n, db_set_value s t n "read" (VInt 1)) table names in
          let s' := set_crm_notifications s (Some table') in
          (Ok true, s', [_broadcast_count s' user])
      end
  end.

(** [doc] is the Notification Log document just inserted. *)
Definition broadcast_log_realtime (s : site) (doc : gmap string value)
  : list publish :=
  match por (get doc "for_user") (get doc "owner") with
  | VStr target_user =>
      if PyStr.truthy target_user then [_broadcast_count s target_user]
      else []
  | _ => []
  end.

(** *** What the properties speak about *)

(** The unseen rows called [name] among [rows]. *)
Definition unseen_named (s : site) (name : string)
    (rows : list (gmap string value)) : Z :=
  Z.of_nat (length (filter (λ r, r !! "name" = Some (VStr name)
                                 ∧ _bool_seen r (_seen_column_name s) = false)
                           rows)).

(** The rows of the log the count of [user] looks at. *)
Definition counted_rows (s : site) (user : string)
  : list (gmap string value) :=
  take 500 (newest_first (rows_of s user)).

End NotificationsHandlers.

(** ** crm/api/mobile_api.py: the other task handlers and the host test *)

Module TaskHandlers.
Import Frappe MobileApi.

(** [hasattr(task, field)] on a document: a field of the doctype, or a key
    the document carries. *)
Definition hasattr (s : site) (task : gmap string value) (field : string)
  : bool :=
  bool_decide (field ∈ task_meta_fields s)
  || bool_decide (is_Some (task !! field)).

(** [task.field = v] when [v is not None] and the document has the field. *)
Definition set_if_has (s : site) (k : string) (v : value)
    (task : gmap string value) : gmap string value :=
  if hasattr s task k then set_if_given k v task else task.

(** [task.save()]: the doctype validates as for an insert, the document is
    stamped and replaces the stored row of its name. *)
Definition save_task (s : site) (name : string) (task : gmap string value)
  : result (gmap string value) * site :=
  match task_insert_error s task with
  | Some e => (Raise e, s)
  | None =>
      let task := <["modified" := VTime (now_datetime s 0)]> task in
      (Ok task,
       set_tasks s ((λ r, if col_is r "name" name then task else r)
                      <$> tasks s))
  end.

Definition msg_task_not_found : string := "CRM Task not found".

(** [frappe.get_doc("CRM Task", name)], by the name of the request. *)
Definition load_task (s : site) (task_name : value)
  : result (string * gmap string value) :=
  match task_name, get_task_doc s task_name with
  | VStr n, Some task => Ok (n, task)
  | _, _ => Raise (DoesNotExistError msg_task_not_found)
  end.

(** The assignments of [edit_task] to the loaded document, in order. *)
Definition apply_edits (s : site)
    (title status priority start_date task_type description assigned_to
     due_date : value) (task : gmap string value) : gmap string value :=
  let task := set_if_given "title" title task in
  let task := set_if_given "status" status task in
  let task := set_if_given "priority" priority task in
  let task := set_if_given "start_date" start_date task in
  let task := set_if_given "task_type" task_type task in
  let task := set_if_has s "description" description task in
  let task := set_if_has s "assigned_to" assigned_to task in
  set_if_has s "due_date" due_date task.

Definition edit_task (s : site)
    (task_id name title status priority start_date task_type description
     assigned_to due_date : value) : result compact * site :=
  let task_name := por task_id name in
  if negb (truthy task_name)
  then (Raise (ValidationError "Task ID is required"), s)
  else
    match load_task s task_name with
    | Raise e => (Raise e, s)
    | Ok (n, task) =>
        let task := apply_edits s title status priority start_date task_type
                                description assigned_to due_date task in
        match save_task s n task with
        | (Raise e, s') => (Raise e, s')
        | (Ok task, s') => (Ok (get_compact_task s' task), s')
        end
    end.

Definition update_status (s : site) (task_id name status : value)
  : result compact * site :=
  let task_name := por task_id name in
  if negb (truthy task_name)
  then (Raise (ValidationError "Task ID is required"), s)
  else if negb (truthy status)
  then (Raise (ValidationError "Status is required"), s)
  else
    match load_task s task_name with
    | Raise e => (Raise e, s)
    | Ok (n, task) =>
        let task := <["status" := status]> task in
        match save_task s n task with
        | (Raise e, s') => (Raise e, s')
        | (Ok task, s') => (Ok (get_compact_task s' task), s')
        end
    end.

(** The value of a field after an edit: the argument when one is given,
    else what was stored. *)
Definition given_or (v old : value) : value :=
  match v with
  | VNull => old
  | _ => v
  end.

(** [cint(limit) or 5] *)
Definition count_of (limit : Z) : Z := if (limit =? 0)%Z then 5%Z else limit.

(** The tasks that start today, most important first. *)
Definition today_tasks (s : site) (count : Z) : list compact :=
  get_compact_task s <$>
    get_all_tasks s [FilterCmp "start_date" "=" (VStr (today s))]
                  (_safe_fields s base_fields)
                  "priority desc, modified desc" 0 count.

(** The response is [{"today": data, "limit": n}]. *)
Definition home_tasks (s : site) (limit : Z) : list compact * Z :=
  (today_tasks s (count_of limit), count_of limit).

Record buckets := {
  b_today : list compact;
  b_late : list compact;
  b_upcoming : list compact;
  b_min_each : Z;
}.

Definition main_page_buckets (s : site) (min_each : Z) : buckets :=
  let today_date := VStr (today s) in
  let min_count := count_of min_each in
  let active_statuses := ["Backlog"; "Todo"; "In Progress"] in
  let fields := _safe_fields s base_fields in
  let today_tasks :=
    get_all_tasks s [FilterCmp "start_date" "=" today_date] fields
                  "priority desc, modified desc" 0 min_count in
  let late_tasks :=
    get_all_tasks s [FilterCmp "start_date" "<" today_date;
                     FilterIn "status" active_statuses] fields
                  "start_date asc, priority desc" 0 min_count in
  let upcoming_tasks :=
    get_all_tasks s [FilterCmp "start_date" ">" today_date] fields
                  "start_date asc, priority desc" 0 min_count in
  {| b_today := get_compact_task s <$> today_tasks;
     b_late := get_compact_task s <$> late_tasks;
     b_upcoming := get_compact_task s <$> upcoming_tasks;
     b_min_each := min_count |}.

(** *** The host test *)

Definition set_request (l : local) (headers : option (gmap string string))
  : local :=
  {| request := headers; site_name := site_name l;
     site_config := site_config l; site_path := site_path l;
     site_path_exists := site_path_exists l; db_name := db_name l;
     db_alive := db_alive l; doctypes := doctypes l;
     settings := settings l; oauth_clients := oauth_clients l;
     generated_client_id := generated_client_id l |}.




End TaskHandlers.

(** ** Concrete sites for the other handlers *)

Module MoreExamples.
Import Frappe.

(** The site of three log rows after its user has marked [n1] as seen. *)
Definition three_rows_marked : site :=
  NotificationsHandlers.set_nlog_rows Examples.three_rows_site
    (NotificationsHandlers.db_set_value Examples.three_rows_site
       (nlog_rows Examples.three_rows_site) "n1" "seen" (VInt 1)).

(** The same site after its user has marked the legacy rows as read. *)
Definition three_rows_read : site :=
  NotificationsHandlers.set_crm_notifications Examples.three_rows_site
    (Some (NotificationsHandlers.db_set_value Examples.three_rows_site
             [ {[ "name" := VStr "c1";
                  "to_user" := VStr "amal@example.com";
                  "creation" := VTime 25; "read" := VInt 0;
                  "type" := VStr "Mention" ]} ]
             "c1" "read" (VInt 1))).

(** A site whose team leader holds both sales roles, and whose user Omar
    holds none. *)
Definition both_roles_site : site :=
  Examples.site_with "mona@example.com"
    {[ "mona@example.com" := ["Sales Manager"; "Sales User"] ]}
    true
    [ Examples.user_row "mona@example.com" 1;
      Examples.user_row "bassam@example.com" 1 ]
    [ {[ "name" := VStr "Team A";
         "team_leader" := VStr "mona@example.com" ]} ]
    [ Examples.member_row "Team A" "bassam@example.com" ]
    [] ∅ [] None.

(** A ToDo that assigns LEAD-1 to Bassam. *)
Definition todo_for_bassam : gmap string value :=
  {[ "reference_type" := VStr "CRM Lead"; "reference_name" := VStr "LEAD-1";
     "owner" := VStr "bassam@example.com" ]}.

End MoreExamples.

(** ** Facts about the framework model *)

Module FrappeFacts.
Import Frappe.

Section Sorting.
Context {A : Type} (ge : A → A → bool).

Lemma insert_by_Permutation (x : A) (l : list A) :
  insert_by ge x l ≡ₚ x :: l.
Proof.
  induction l as [|y r IH]; simpl; [done|].
  destruct (ge x y); [done|].
  rewrite IH. apply Permutation_swap.
Qed.

Lemma sort_by_Permutation (l : list A) : sort_by ge l ≡ₚ l.
Proof.
  induction l as [|x r IH]; simpl; [done|].
  by rewrite insert_by_Permutation, IH.
Qed.

Lemma sort_by_length (l : list A) : length (sort_by ge l) = length l.
Proof. by rewrite sort_by_Permutation. Qed.

Hypothesis ge_total : ∀ x y, ge x y = false → ge y x = true.

Lemma insert_by_Sorted (x : A) (l : list A) :
  Sorted (λ a b, ge a b = true) l →
  Sorted (λ a b, ge a b = true) (insert_by ge x l).
Proof.
  induction 1 as [|y r Hr IH Hhd]; simpl.
  - repeat constructor.
  - destruct (ge x y) eqn:Hxy.
    + constructor; [by constructor|by constructor].
    + constructor; [done|].
      destruct Hhd as [|z r' Hyz]; simpl.
      * constructor. by apply ge_total.
      * destruct (ge x z); constructor; [by apply ge_total|done].
Qed.

Lemma sort_by_Sorted (l : list A) :
  Sorted (λ a b, ge a b = true) (sort_by ge l).
Proof.
  induction l as [|x r IH]; simpl; [constructor|].
  by apply insert_by_Sorted.
Qed.

End Sorting.

Lemma StronglySorted_take {A} (R : A → A → Prop) (n : nat) (l : list A) :
  StronglySorted R l → StronglySorted R (take n l).
Proof.
  intros Hl. revert n.
  induction Hl as [|x l Hl IH Hx]; intros [|n]; simpl; try constructor.
  - apply IH.
  - apply Forall_take, Hx.
Qed.

Lemma slice_to_fmap {A B} (f : A → B) (l : list A) (n : Z) :
  slice_to (f <$> l) n = f <$> slice_to l n.
Proof.
  unfold slice_to. rewrite length_fmap.
  destruct (0 <=? n)%Z; by rewrite fmap_take.
Qed.

Lemma slice_to_length {A} (l : list A) (n : Z) :
  (0 ≤ n)%Z → (Z.of_nat (length (slice_to l n)) ≤ n)%Z.
Proof.
  intros Hn. unfold slice_to.
  destruct (Z.leb_spec 0 n) as [_|?]; [|lia].
  rewrite length_take. lia.
Qed.

Lemma slice_to_StronglySorted {A} (R : A → A → Prop) (l : list A) (n : Z) :
  StronglySorted R l → StronglySorted R (slice_to l n).
Proof.
  intros Hl. unfold slice_to.
  destruct (0 <=? n)%Z; by apply StronglySorted_take.
Qed.

Lemma slice_to_Forall {A} (P : A → Prop) (l : list A) (n : Z) :
  Forall P l → Forall P (slice_to l n).
Proof.
  intros Hl. unfold slice_to.
  destruct (0 <=? n)%Z; by apply Forall_take.
Qed.

(** A projected row reads like the row on the selected columns. *)
Lemma project_lookup (fields : list string) (r : gmap string value)
    (k : string) :
  k ∈ fields → project fields r !! k = r !! k.
Proof.
  intros Hk. unfold project.
  destruct (r !! k) as [v|] eqn:Hr.
  - apply map_lookup_filter_Some. by split.
  - apply map_lookup_filter_None. left. done.
Qed.

Lemma bind_Ok {A B} (m : result A) (k : A → result B) (b : B) :
  bind m k = Ok b → ∃ a, m = Ok a ∧ k a = Ok b.
Proof. destruct m as [a|e]; simpl; [eauto|done]. Qed.

End FrappeFacts.

(** ** The notification aggregator *)

Module NotificationsFacts.
Import Frappe Notifications FrappeFacts.

Lemma bool_seen_project (fields : list string) (r : gmap string value)
    (seen_col : option string) :
  (∀ c, seen_col = Some c → c ∈ fields) →
  _bool_seen (project fields r) seen_col = _bool_seen r seen_col.
Proof.
  intros Hc. destruct seen_col as [c|]; simpl; [|done].
  by rewrite project_lookup by auto.
Qed.

(** The counting loop counts the rows whose normalised flag is false. *)
Lemma count_loop (seen_col : option string) (rows : list (gmap string value))
    (acc : Z) :
  foldl (λ total r, if negb (_bool_seen r seen_col)
                    then (total + 1)%Z else total) acc rows
  = (acc + Z.of_nat (length (filter (λ r, _bool_seen r seen_col = false) rows)))%Z.
Proof.
  revert acc. induction rows as [|r rows IH]; intros acc; simpl.
  - lia.
  - rewrite IH, filter_cons.
    destruct (decide (_bool_seen r seen_col = false)) as [Hr|Hr].
    + rewrite Hr. simpl. lia.
    + apply not_false_is_true in Hr. by rewrite Hr.
Qed.

Lemma unseen_project (fields : list string) (seen_col : option string)
    (rows : list (gmap string value)) :
  (∀ c, seen_col = Some c → c ∈ fields) →
  length (filter (λ r, _bool_seen r seen_col = false) (project fields <$> rows))
  = length (filter (λ r, _bool_seen r seen_col = false) rows).
Proof.
  intros Hc. induction rows as [|r rows IH]; [done|].
  rewrite fmap_cons, !filter_cons, bool_seen_project by done.
  destruct (decide (_bool_seen r seen_col = false));
    rewrite ?length_cons; by rewrite IH.
Qed.

(** The store's filter of a query for [user] selects [rows_of]. *)
Lemma or_filters_rows_of (s : site) (user : string) :
  filter (λ r, existsb (λ f, col_is r f.1 f.2) (or_filters_for s user) = true)
         (nlog_rows s)
  = rows_of s user.
Proof.
  unfold rows_of. apply list_filter_iff. intros r.
  unfold or_filters_for, _has, col_is.
  case_bool_decide as Hcol; simpl;
    rewrite ?orb_false_r, ?orb_true_iff, ?bool_decide_eq_true; tauto.
Qed.

(** The loop over the fetched rows and the legacy query, in closed form. *)
Lemma unseen_count_unfold (s : site) (user : string) :
  _get_unseen_count_for s user
  = (unseen_in s (take 500 (newest_first (rows_of s user)))
     + legacy_unread s user)%Z.
Proof.
  unfold _get_unseen_count_for, get_all_nlog, unseen_in, legacy_unread.
  rewrite count_loop, unseen_project, or_filters_rows_of.
  - change (Z.to_nat 500) with 500%nat.
    destruct (crm_notifications s); lia.
  - intros c ->. set_solver.
Qed.

(** C3, as the code has it: the count is the number of unseen rows among the
    500 newest log rows that are addressed to, owned by or (where the column
    exists) sent by the user, plus the unread rows of the legacy table when
    that table exists. *)
Theorem get_unseen_count_formula (s : site) :
  get_unseen_count s
  = (unseen_in s (take 500 (newest_first (rows_of s (session_user s))))
     + legacy_unread s (session_user s))%Z.
Proof. apply unseen_count_unfold. Qed.

(** When the user has at most 500 log rows, every one of them is counted. *)
Lemma get_unseen_count_small (s : site) :
  (length (rows_of s (session_user s)) ≤ 500)%nat →
  get_unseen_count s
  = (unseen_in s (rows_of s (session_user s))
     + legacy_unread s (session_user s))%Z.
Proof.
  intros Hlen. unfold get_unseen_count. rewrite unseen_count_unfold. f_equal.
  unfold unseen_in, newest_first.
  rewrite take_ge by (rewrite sort_by_length; lia).
  by rewrite sort_by_Permutation.
Qed.

(** C3 as stated fails: with 501 unseen rows addressed to the user and no
    legacy row the count is 500, not 501 + 0. *)
Lemma get_unseen_count_capped :
  get_unseen_count Examples.busy_site = 500%Z
  ∧ unseen_owned_or_addressed Examples.busy_site "amal@example.com" = 501%Z
  ∧ legacy_unread Examples.busy_site "amal@example.com" = 0%Z
  ∧ get_unseen_count Examples.busy_site
    ≠ (unseen_owned_or_addressed Examples.busy_site "amal@example.com"
       + legacy_unread Examples.busy_site "amal@example.com")%Z.
Proof. vm_compute. done. Qed.

(** C10: [get_unread_count] returns what [get_unseen_count] returns, on
    every site. *)
Theorem get_unread_count_is_get_unseen_count (s : site) :
  get_unread_count s = get_unseen_count s
  ∧ get_unread_count s = _get_unseen_count_for s (session_user s).
Proof. split; reflexivity. Qed.

(** *** The merged list *)

Lemma sort_keys_snd (now : nat → Z) (k : nat) (out : list portal) :
  snd <$> sort_keys now k out = out.
Proof.
  revert k. induction out as [|x r IH]; intros k; simpl; [done|].
  destruct (time_of (p_creation x)); simpl; by rewrite IH.
Qed.

Lemma sort_keys_creation (s : site) (k : nat) (out : list portal) :
  Forall (λ kp, creation_key s kp.1 kp.2) (sort_keys (now_datetime s) k out).
Proof.
  revert k. induction out as [|x r IH]; intros k; simpl; [constructor|].
  destruct (time_of (p_creation x)) as [t|] eqn:Ht; constructor; try apply IH;
    unfold creation_key; simpl; rewrite Ht; eauto.
Qed.

Lemma sorted_with_keys_sorted (s : site) (out : list portal) :
  StronglySorted (λ x y : Z, (y ≤ x)%Z) (fst <$> sorted_with_keys s out).
Proof.
  unfold sorted_with_keys.
  eapply StronglySorted_fmap with (R1 := λ a b, (b.1 <=? a.1)%Z = true).
  - intros a b Hab. by apply Z.leb_le.
  - apply Sorted_StronglySorted.
    + intros a b c Hab Hbc. apply Z.leb_le. apply Z.leb_le in Hab, Hbc. lia.
    + apply sort_by_Sorted. intros a b Hab.
      apply Z.leb_le. apply Z.leb_gt in Hab. lia.
Qed.

Lemma sorted_with_keys_creation (s : site) (out : list portal) :
  Forall (λ kp, creation_key s kp.1 kp.2) (sorted_with_keys s out).
Proof.
  unfold sorted_with_keys.
  rewrite sort_by_Permutation. apply sort_keys_creation.
Qed.

(** The call returns whenever the legacy table is left out. *)
Lemma list_portal_notifications_returns (s : site) (limit : Z) :
  ∃ out, list_portal_notifications s limit 0 = Ok out.
Proof. unfold list_portal_notifications, merged. simpl. eauto. Qed.

(** C4, as the code has it: the returned rows are in non-increasing order of
    their keys, the key of a row being its creation time or, when it has
    none, the clock reading taken for it; the sources do not matter. When
    the limit is not negative, the result is no longer than the limit. *)
Theorem list_portal_notifications_sorted (s : site) (limit include_legacy : Z)
    (out : list portal) :
  list_portal_notifications s limit include_legacy = Ok out →
  ∃ keys : list Z,
    Forall2 (creation_key s) keys out
    ∧ StronglySorted (λ x y : Z, (y ≤ x)%Z) keys
    ∧ ((0 ≤ limit)%Z → (Z.of_nat (length out) ≤ limit)%Z).
Proof.
  unfold list_portal_notifications. intros Hout.
  apply bind_Ok in Hout as (m & _ & Hout). injection Hout as <-.
  exists (slice_to (fst <$> sorted_with_keys s m) limit).
  split; [|split].
  - rewrite !slice_to_fmap. apply Forall2_fmap, Forall_Forall2_diag.
    apply slice_to_Forall, sorted_with_keys_creation.
  - apply slice_to_StronglySorted, sorted_with_keys_sorted.
  - apply slice_to_length.
Qed.

Lemma list_portal_notifications_sorted_witness :
  ∃ keys : list Z,
    Forall2 (creation_key Examples.three_rows_site) keys
            Examples.three_rows_page
    ∧ StronglySorted (λ x y : Z, (y ≤ x)%Z) keys
    ∧ ((0 ≤ 2)%Z → (Z.of_nat (length Examples.three_rows_page) ≤ 2)%Z).
Proof.
  apply (list_portal_notifications_sorted Examples.three_rows_site 2 1).
  vm_compute. reflexivity.
Defined.

(** C4 as stated fails for a negative limit: with three rows and limit -1
    the call returns two rows. *)
Lemma list_portal_notifications_negative_limit :
  ∃ out, list_portal_notifications Examples.three_rows_site (-1) 0 = Ok out
         ∧ length out = 2%nat
         ∧ ¬ (Z.of_nat (length out) ≤ -1)%Z.
Proof.
  eexists. split; [vm_compute; reflexivity|]. split; [reflexivity|].
  vm_compute. done.
Qed.

(** *** The reminder override *)

Lemma starts_with_spec (p t : string) :
  PyStr.starts_with p t = true ↔ ∃ b, t = p ++ b.
Proof.
  revert t. induction p as [|a p IH]; intros t; simpl.
  - split; [eauto|done].
  - destruct t as [|c t].
    + split; [done|]. intros [b Hb]. discriminate.
    + rewrite andb_true_iff, Ascii.eqb_eq, IH. split.
      * intros [-> [b ->]]. eauto.
      * intros [b Hb]. injection Hb as -> ->. eauto.
Qed.

(** [needle in hay] holds exactly when [hay] has [needle] inside. *)
Lemma contains_spec (needle hay : string) :
  PyStr.contains needle hay = true ↔ ∃ a b, hay = a ++ needle ++ b.
Proof.
  induction hay as [|c hay IH].
  - cbn [PyStr.contains]. rewrite orb_false_r, starts_with_spec. split.
    + intros [b Hb]. by exists "", b.
    + intros ([|a0 a] & b & Hb); [eauto|discriminate].
  - cbn [PyStr.contains]. rewrite orb_true_iff, starts_with_spec, IH. split.
    + intros [[b Hb]|(a & b & ->)].
      * by exists "", b.
      * by exists (String c a), b.
    + intros ([|a0 a] & b & Hb).
      * left. eauto.
      * right. injection Hb as -> ->. eauto.
Qed.

Lemma looks_like_reminder_spec (row : gmap string value) :
  _looks_like_reminder row = true
  ↔ PyStr.lower (text row "type") = "reminder"
    ∨ PyStr.lower (text row "type") = "alert"
    ∨ ∃ a b, PyStr.lower (text row "subject") = a ++ "remind" ++ b.
Proof.
  unfold _looks_like_reminder.
  rewrite orb_true_iff, bool_decide_eq_true, contains_spec.
  rewrite !elem_of_cons, elem_of_nil. tauto.
Qed.

(** C8: the displayed type of a normalised log row is "reminder" exactly when
    the lowercased declared type is "reminder" or "alert", or the lowercased
    subject has "remind" inside. Normalisation builds a new dict from the
    row and takes no part of the site as output, so nothing stored changes. *)
Theorem reminder_type_iff (s : site) (row : gmap string value)
    (seen_col : option string) :
  p_type (_nlog_to_portal_dict s row seen_col) = VStr "reminder"
  ↔ PyStr.lower (text row "type") = "reminder"
    ∨ PyStr.lower (text row "type") = "alert"
    ∨ ∃ a b, PyStr.lower (text row "subject") = a ++ "remind" ++ b.
Proof.
  rewrite <- looks_like_reminder_spec. cbn [_nlog_to_portal_dict p_type].
  destruct (_looks_like_reminder row) eqn:Hlooks; [done|].
  split; [|done]. intros Htype. exfalso.
  assert (get row "type" = VStr "reminder") as Hget.
  { unfold por in Htype. by destruct (truthy (get row "type")). }
  apply not_true_iff_false in Hlooks. apply Hlooks.
  apply looks_like_reminder_spec. left.
  unfold text. by rewrite Hget.
Qed.

End NotificationsFacts.


(** ** The assignment authorizer *)

Module AssignToFacts.
Import Frappe AssignTo FrappeFacts.

Lemma set_assignments_same (s : site) :
  set_assignments s (assignments s) = s.
Proof. by destruct s. Qed.

(** One call to the assignment subsystem per user, in order. *)
Lemma add_assignments (f : string → assignment) (l : list string) (s : site) :
  foldl (λ s u, add_assignment s (f u)) s l
  = set_assignments s (assignments s ++ (f <$> l)).
Proof.
  revert s. induction l as [|u l IH]; intros s; simpl.
  - by rewrite app_nil_r, set_assignments_same.
  - rewrite IH. unfold add_assignment. destruct s; simpl.
    unfold set_assignments; simpl. by rewrite <- app_assoc.
Qed.

(** The users an error names are the listed users outside the roster. *)
Lemma illegal_users_spec (allowed : gset string) (users : list string)
    (u : string) :
  u ∈ illegal_users allowed users ↔ u ∈ users ∧ u ∉ allowed.
Proof.
  unfold illegal_users. rewrite list_elem_of_In, filter_In, <- list_elem_of_In.
  rewrite negb_true_iff, bool_decide_eq_false. done.
Qed.

Lemma illegal_users_nil (allowed : gset string) (users : list string) :
  illegal_users allowed users = [] ↔ Forall (λ u, u ∈ allowed) users.
Proof.
  unfold illegal_users. induction users as [|u users IH]; simpl.
  - split; [constructor|done].
  - rewrite Forall_cons. case_bool_decide as Hu; simpl.
    + rewrite IH. tauto.
    + split; [done|]. tauto.
Qed.

(** C2, as the code has it. For a caller who is not privileged: a Sales
    Manager who can read the target document is refused when a listed
    (non-empty) user is outside the roster, with a permission error that
    names those users and with the site unchanged; when every listed user is
    in the roster the call succeeds and the assignment subsystem receives
    exactly one request per listed user, in order. A caller who is not a
    Sales Manager either is refused with a permission error, whatever the
    request. *)
Theorem assign_lead_by_role (s : site) (doctype name : string)
    (users : option (list string)) (description : option string) :
  let actor := session_user s in
  let listed := List.filter PyStr.truthy (default [] users) in
  let roster := _team_members_of s actor in
  _is_privileged s actor = false →
  (_is_sales_manager s actor = true → can_read s doctype name = true →
     (Exists (λ u, u ∉ roster) listed →
        assign_lead s doctype name users description
        = (Raise (PermissionError
                    ("You can only assign to your team members: "
                     ++ PyStr.join ", " (illegal_users roster listed))), s))
     ∧ (Forall (λ u, u ∈ roster) listed →
          assign_lead s doctype name users description
          = (Ok (true, listed),
             set_assignments s
               (assignments s
                ++ (request_of doctype name description <$> listed)))))
  ∧ (_is_sales_manager s actor = false →
       ∃ msg, assign_lead s doctype name users description
              = (Raise (PermissionError msg), s)).
Proof.
  intros actor listed roster Hpriv. split.
  - intros Hman Hread. unfold assign_lead, check_actor.
    fold listed actor. rewrite Hread, Hpriv, Hman. simpl. fold roster.
    split.
    + intros Hout.
      destruct (illegal_users roster listed) as [|u l] eqn:Hill; [|done].
      apply illegal_users_nil in Hill.
      apply Exists_exists in Hout as (u & Hu & Hnot).
      rewrite Forall_forall in Hill. destruct Hnot. by apply Hill.
    + intros Hin. apply illegal_users_nil in Hin. rewrite Hin.
      by rewrite add_assignments.
  - intros Hman. unfold assign_lead, check_actor.
    fold listed actor. rewrite Hpriv, Hman.
    destruct (can_read s doctype name); simpl; eauto.
Qed.

Lemma assign_lead_by_role_witness :
  assign_lead (Examples.manager_site true) "CRM Lead" "LEAD-1"
              (Some ["bassam@example.com"; "dina@example.com"]) None
  = (Ok (true, ["bassam@example.com"; "dina@example.com"]),
     set_assignments (Examples.manager_site true)
       [ request_of "CRM Lead" "LEAD-1" None "bassam@example.com";
         request_of "CRM Lead" "LEAD-1" None "dina@example.com" ]).
Proof.
  pose proof (assign_lead_by_role (Examples.manager_site true) "CRM Lead"
                "LEAD-1" (Some ["bassam@example.com"; "dina@example.com"]) None)
    as Hrole.
  cbv zeta in Hrole.
  assert (_is_privileged (Examples.manager_site true) "mona@example.com"
          = false) as Hpriv by reflexivity.
  assert (_is_sales_manager (Examples.manager_site true) "mona@example.com"
          = true) as Hman by reflexivity.
  assert (can_read (Examples.manager_site true) "CRM Lead" "LEAD-1" = true)
    as Hread by reflexivity.
  destruct (Hrole Hpriv) as [Hmanager _].
  destruct (Hmanager Hman Hread) as [_ Hok].
  apply Hok. repeat constructor.
Defined.

(** C2 as stated fails: a Sales Manager who lists only roster members but
    cannot read the target document is refused, and nothing is assigned. *)
Lemma assign_lead_unreadable :
  _is_privileged (Examples.manager_site false) "mona@example.com" = false
  ∧ _is_sales_manager (Examples.manager_site false) "mona@example.com" = true
  ∧ Forall (λ u, u ∈ _team_members_of (Examples.manager_site false)
                                     "mona@example.com")
           ["bassam@example.com"]
  ∧ assign_lead (Examples.manager_site false) "CRM Lead" "LEAD-1"
                (Some ["bassam@example.com"]) None
    = (Raise (PermissionError "Not permitted to access this document"),
       Examples.manager_site false).
Proof.
  split; [reflexivity|]. split; [reflexivity|]. split; [|reflexivity].
  repeat constructor.
Qed.

(** The guard on ToDo creation applies the roster rule of [assign_lead] to a
    Sales Manager who is neither privileged nor a Sales User. *)
Lemma validate_todo_assignment_manager (s : site) (doc : gmap string value)
    (owner : string) :
  let actor := or_session s (text doc "assigned_by") in
  truthy (get doc "reference_type") = true →
  truthy (get doc "reference_name") = true →
  get doc "owner" = VStr owner → owner ≠ "" →
  _is_privileged s actor = false → _is_sales_user s actor = false →
  _is_sales_manager s actor = true →
  validate_todo_assignment s doc = Ok tt ↔ owner ∈ _team_members_of s actor.
Proof.
  intros actor Hrt Hrn Howner Hne Hpriv Huser Hman.
  unfold validate_todo_assignment. fold actor.
  rewrite Hrt, Hrn, Howner, Hpriv, Huser, Hman. simpl.
  destruct owner; [done|]. simpl.
  case_bool_decide; split; done.
Qed.

Lemma no_roster_no_users (s : site) (keep : gmap string value → bool) :
  (∀ u, keep u = false) → get_all_users s keep = [].
Proof.
  intros Hkeep. unfold get_all_users.
  induction (users s) as [|u l IH]; simpl; [done|]. by rewrite Hkeep.
Qed.

(** C7: a privileged caller receives all enabled users; a Sales Manager who
    is not privileged receives the enabled users whose name is in the
    caller's team roster, and an empty list when the roster is empty; every
    other caller receives an empty list. *)
Theorem get_assignable_users_by_role (s : site) (doctype name : string) :
  let me := session_user s in
  let roster := _team_members_of s me in
  (_is_privileged s me = true →
     get_assignable_users s doctype name = get_all_users s enabled)
  ∧ (_is_privileged s me = false → _is_sales_manager s me = true →
       get_assignable_users s doctype name
       = get_all_users s (λ u, enabled u && name_in roster u)
       ∧ (roster = ∅ → get_assignable_users s doctype name = []))
  ∧ (_is_privileged s me = false → _is_sales_manager s me = false →
       get_assignable_users s doctype name = []).
Proof.
  intros me roster. unfold get_assignable_users. fold me. fold roster.
  split; [|split].
  - by intros ->.
  - intros -> ->. case_bool_decide as Hempty; [|done].
    split; [|done]. symmetry. apply no_roster_no_users. intros u.
    rewrite Hempty. unfold name_in, value_in_set.
    destruct (get u "name"); by rewrite ?andb_false_r.
  - by intros -> ->.
Qed.

Lemma get_assignable_users_by_role_witness :
  get_assignable_users (Examples.manager_site true) "CRM Lead" "LEAD-1"
  = [ project ["name"; "full_name"; "user_image"]
        (Examples.user_row "bassam@example.com" 1) ].
Proof.
  pose proof (get_assignable_users_by_role (Examples.manager_site true)
                "CRM Lead" "LEAD-1") as Hrole.
  cbv zeta in Hrole. destruct Hrole as (_ & Hmanager & _).
  assert (_is_privileged (Examples.manager_site true) "mona@example.com"
          = false) as Hpriv by reflexivity.
  assert (_is_sales_manager (Examples.manager_site true) "mona@example.com"
          = true) as Hman by reflexivity.
  destruct (Hmanager Hpriv Hman) as [-> _].
  vm_compute. reflexivity.
Defined.

End AssignToFacts.


(** ** Lead visibility *)

Module LeadsPermissionsFacts.
Import Frappe LeadsPermissions FrappeFacts.

Lemma get_VStr (r : gmap string value) (k x : string) :
  get r k = VStr x ↔ r !! k = Some (VStr x).
Proof.
  unfold get. destruct (r !! k) as [v|]; simpl; [|done].
  split; congruence.
Qed.

Lemma col_is_true (r : gmap string value) (k v : string) :
  col_is r k v = true ↔ r !! k = Some (VStr v).
Proof. apply bool_decide_eq_true. Qed.

Lemma sql_eq_true (a b : value) :
  sql_eq a b = true ↔ ∃ x, a = VStr x ∧ b = VStr x.
Proof.
  destruct a, b; simpl; try (split; [done|intros (x & ? & ?); done]).
  rewrite String.eqb_eq. split.
  - intros ->. eauto.
  - intros (x & [= ->] & [= ->]). done.
Qed.

Lemma existsb_elem_of {A} (f : A → bool) (l : list A) :
  existsb f l = true ↔ ∃ x, x ∈ l ∧ f x = true.
Proof.
  rewrite existsb_exists. by setoid_rewrite list_elem_of_In.
Qed.

Lemma open_todo_on_true (dt name : string) (td : gmap string value) :
  open_todo_on dt (VStr name) td = true
  ↔ td !! "reference_type" = Some (VStr dt)
    ∧ td !! "reference_name" = Some (VStr name)
    ∧ td !! "status" = Some (VStr "Open").
Proof.
  unfold open_todo_on.
  rewrite !andb_true_iff, !col_is_true, sql_eq_true. split.
  - intros [[Hrt (x & Hx & Hn)] Hst]. injection Hn as <-.
    apply get_VStr in Hx. done.
  - intros (Hrt & Hn & Hst). split; [split|]; try done.
    exists name. by rewrite get_VStr.
Qed.

Lemma member_dt_is_Member (s : site) : (_member_user_col s).1 = "Member".
Proof.
  unfold _member_user_col. destruct (member_meta s); [|done].
  destruct (List.find _ l); [done|]. by destruct (List.find _ _).
Qed.

(** The first existence filter: an open assignment of the user. *)
Lemma assigned_self_spec (s : site) (lead : gmap string value)
    (lname user : string) :
  lead !! "name" = Some (VStr lname) →
  holds s lead (AssignedSelf user) = true
  ↔ holds_open_assignment s "CRM Lead" lname user.
Proof.
  intros Hname. apply get_VStr in Hname. simpl. rewrite Hname.
  rewrite existsb_elem_of. unfold holds_open_assignment.
  apply exist_proper. intros td.
  rewrite andb_true_iff, open_todo_on_true, col_is_true. tauto.
Qed.

(** The second: an open assignment of a member of a team the user leads. *)
Lemma assigned_team_spec (s : site) (lead : gmap string value)
    (lname user : string) :
  lead !! "name" = Some (VStr lname) →
  holds s lead (AssignedTeam (_member_user_col s).1 (_member_user_col s).2 user)
  = true
  ↔ ∃ member, leads s user member
              ∧ holds_open_assignment s "CRM Lead" lname member.
Proof.
  intros Hname. apply get_VStr in Hname. simpl. rewrite Hname.
  unfold table_of. rewrite member_dt_is_Member. simpl.
  rewrite existsb_elem_of. split.
  - intros (m & Hm & Hex). apply existsb_elem_of in Hex as (t & Ht & Hex).
    rewrite !andb_true_iff, sql_eq_true, col_is_true in Hex.
    destruct Hex as [[(team & Hparent & Hteam) Hleader] Hex].
    apply existsb_elem_of in Hex as (td & Htd & Hex).
    rewrite andb_true_iff, open_todo_on_true, sql_eq_true in Hex.
    destruct Hex as [(Hrt & Hrn & Hst) (member & Halloc & Hcol)].
    rewrite get_VStr in Hparent, Hteam, Halloc, Hcol.
    exists member. split.
    + by exists t, m, team.
    + by exists td.
  - intros (member & (t & m & team & Ht & Hm & Hleader & Hteam & Hparent & Hcol)
            & (td & Htd & Hrt & Hrn & Halloc & Hst)).
    exists m. split; [done|]. apply existsb_elem_of. exists t. split; [done|].
    rewrite !andb_true_iff, sql_eq_true, col_is_true.
    split; [split; [|done]|].
    + exists team. by rewrite !get_VStr.
    + apply existsb_elem_of. exists td. split; [done|].
      rewrite andb_true_iff, open_todo_on_true, sql_eq_true.
      split; [done|]. exists member. by rewrite !get_VStr.
Qed.

Lemma led_members_spec (s : site) (user : string) (v : value) :
  v ∈ led_members s user
  ↔ ∃ t m team, t ∈ teams s ∧ m ∈ members s
                ∧ t !! "team_leader" = Some (VStr user)
                ∧ t !! "name" = Some (VStr team)
                ∧ m !! "parent" = Some (VStr team)
                ∧ v = get m (_member_user_col s).2.
Proof.
  unfold led_members.
  pose proof (member_dt_is_Member s) as Hdt.
  destruct (_member_user_col s) as [member_dt member_col]. simpl in *.
  subst member_dt. unfold table_of. simpl.
  rewrite list_elem_of_bind. split.
  - intros (m & Hv & Hm). apply list_elem_of_bind in Hv as (t & Hv & Ht).
    destruct (sql_eq (get m "parent") (get t "name")
              && col_is t "team_leader" user) eqn:Hcond.
    + apply andb_true_iff in Hcond as [Hjoin Hleader].
      apply sql_eq_true in Hjoin as (team & Hparent & Hteam).
      apply col_is_true in Hleader. rewrite get_VStr in Hparent, Hteam.
      apply list_elem_of_singleton in Hv. by exists t, m, team.
    + by apply elem_of_nil in Hv.
  - intros (t & m & team & Ht & Hm & Hleader & Hteam & Hparent & ->).
    exists m. split; [|done]. apply list_elem_of_bind. exists t. split; [|done].
    apply col_is_true in Hleader. rewrite <- get_VStr in Hteam, Hparent.
    rewrite Hparent, Hteam, Hleader. simpl. rewrite String.eqb_refl. simpl.
    by apply list_elem_of_singleton.
Qed.

Lemma truthy_VStr (x : string) : truthy (VStr x) = true ↔ x ≠ "".
Proof. simpl. by destruct x. Qed.

(** A member of a led team is in the inline list. *)
Lemma member_in_assign_spec (s : site) (user : string) (l : list string) :
  existsb (λ mem, truthy mem && value_in mem l) (led_members s user) = true
  ↔ ∃ member, member ≠ "" ∧ leads s user member ∧ member ∈ l.
Proof.
  rewrite existsb_elem_of. split.
  - intros (v & Hv & Hcond). apply andb_true_iff in Hcond as [Htruthy Hin].
    destruct v as [| | |member|]; try done.
    apply bool_decide_eq_true in Hin. exists member.
    split; [by apply truthy_VStr|]. split; [|done].
    apply led_members_spec in Hv
      as (t & m & team & ? & ? & ? & ? & ? & Hcol).
    symmetry in Hcol. apply get_VStr in Hcol. by exists t, m, team.
  - intros (member & Hne & (t & m & team & ? & ? & ? & ? & ? & Hcol) & Hin).
    exists (VStr member). split.
    + apply led_members_spec. exists t, m, team.
      apply get_VStr in Hcol. by rewrite Hcol.
    + apply andb_true_iff. split.
      * by apply truthy_VStr.
      * by apply bool_decide_eq_true.
Qed.

(** A member of a led team holds an open assignment on the document. *)
Lemma member_todo_spec (s : site) (user dt name : string) :
  existsb (λ td, open_todo_on dt (VStr name) td
                 && existsb (sql_eq (get td "allocated_to"))
                            (List.filter truthy (led_members s user)))
          (todos s) = true
  ↔ ∃ member, member ≠ "" ∧ leads s user member
              ∧ holds_open_assignment s dt name member.
Proof.
  rewrite existsb_elem_of. split.
  - intros (td & Htd & Hcond).
    rewrite andb_true_iff, open_todo_on_true, existsb_elem_of in Hcond.
    destruct Hcond as [(Hrt & Hrn & Hst) (v & Hv & Heq)].
    apply list_elem_of_In, filter_In in Hv as [Hv Htruthy].
    apply list_elem_of_In in Hv.
    apply sql_eq_true in Heq as (member & Halloc & ->).
    apply get_VStr in Halloc. exists member.
    split; [by apply truthy_VStr|]. split.
    + apply led_members_spec in Hv
        as (t & m & team & ? & ? & ? & ? & ? & Hcol).
      symmetry in Hcol. apply get_VStr in Hcol. by exists t, m, team.
    + by exists td.
  - intros (member & Hne & (t & m & team & ? & ? & ? & ? & ? & Hcol)
            & (td & Htd & Hrt & Hrn & Halloc & Hst)).
    exists td. split; [done|].
    rewrite andb_true_iff, open_todo_on_true, existsb_elem_of.
    split; [done|]. exists (VStr member). split.
    + apply list_elem_of_In, filter_In. split.
      * apply list_elem_of_In, led_members_spec. exists t, m, team.
        apply get_VStr in Hcol. by rewrite Hcol.
      * by apply truthy_VStr.
    + apply sql_eq_true. exists member. by rewrite get_VStr.
Qed.

(** The two emptiness tests before the last query add nothing to it. *)
Lemma guarded_query {A B} (ms : list A) (tds : list B) (keep : A → bool)
    (f : B → bool) (g : B → A → bool) :
  negb (bool_decide (ms = []))
  && negb (bool_decide (List.filter keep ms = []))
  && existsb (λ td, f td && existsb (g td) (List.filter keep ms)) tds
  = existsb (λ td, f td && existsb (g td) (List.filter keep ms)) tds.
Proof.
  destruct (existsb _ tds) eqn:Hex; [|by rewrite andb_false_r].
  apply existsb_exists in Hex as (td & _ & Hex).
  apply andb_true_iff in Hex as [_ Hex].
  apply existsb_exists in Hex as (v & Hv & _).
  destruct ms as [|m ms]; [done|].
  destruct (List.filter keep (m :: ms)); [done|].
  by rewrite !bool_decide_eq_false_2.
Qed.

Lemma not_guest (user : string) :
  PyStr.truthy user = true → user ≠ "Guest" →
  negb (PyStr.truthy user) || String.eqb user "Guest" = false.
Proof.
  intros -> Hguest. simpl. by apply String.eqb_neq.
Qed.

(** C6, as the code has it, for a user who is neither empty nor Guest. With
    the System Manager role the list query gets no condition and the
    document check accepts. Without it, a Lead row is visible exactly when
    the user holds an open assignment on it or leads a team one of whose
    members does; and the document check accepts exactly when the user is in
    the document's inline assignee list or holds an open assignment on it,
    or a non-empty member of a team the user leads is or does. *)
Theorem lead_visibility (s : site) (user lname ptype : string)
    (lead : gmap string value) (doc : document) :
  PyStr.truthy user = true → user ≠ "Guest" →
  lead !! "name" = Some (VStr lname) →
  ("System Manager" ∈ get_roles s user →
     get_permission_query_conditions s user = None
     ∧ has_permission s doc ptype user = true)
  ∧ ("System Manager" ∉ get_roles s user →
       (visible s user lead = true
        ↔ holds_open_assignment s "CRM Lead" lname user
          ∨ ∃ member, leads s user member
                      ∧ holds_open_assignment s "CRM Lead" lname member)
       ∧ (has_permission s doc ptype user = true
          ↔ user ∈ default [] (_assign doc)
            ∨ holds_open_assignment s (doctype doc) (name doc) user
            ∨ ∃ member, member ≠ "" ∧ leads s user member
                        ∧ (member ∈ default [] (_assign doc)
                           ∨ holds_open_assignment s (doctype doc) (name doc)
                                                   member))).
Proof.
  intros Huser Hguest Hname.
  pose proof (not_guest user Huser Hguest) as Hgate.
  unfold visible, get_permission_query_conditions, has_permission.
  rewrite Hgate. split.
  - intros Hsm. by rewrite bool_decide_eq_true_2.
  - intros Hsm. rewrite bool_decide_eq_false_2 by done. split.
    + pose proof (assigned_team_spec s lead lname user Hname) as Hteam.
      destruct (_member_user_col s) as [member_dt member_col].
      cbn [holds]. rewrite orb_true_iff.
      rewrite <- Hteam, <- (assigned_self_spec s lead lname user Hname).
      done.
    + rewrite guarded_query.
      case_bool_decide as Hin; [tauto|].
      destruct (existsb _ (todos s)) eqn:Hself.
      { split; [intros _|done]. right. left.
        apply existsb_elem_of in Hself as (td & Htd & Hcond).
        rewrite andb_true_iff, open_todo_on_true, col_is_true in Hcond.
        exists td. tauto. }
      assert (¬ holds_open_assignment s (doctype doc) (name doc) user)
        as Hnot_self.
      { intros (td & Htd & Hrt & Hrn & Halloc & Hst).
        apply not_true_iff_false in Hself. apply Hself.
        apply existsb_elem_of. exists td. split; [done|].
        rewrite andb_true_iff, open_todo_on_true, col_is_true. tauto. }
      destruct (existsb _ (led_members s user)) eqn:Hmem.
      { split; [intros _|done]. right. right.
        apply member_in_assign_spec in Hmem as (member & ? & ? & ?).
        exists member. tauto. }
      rewrite member_todo_spec. split.
      * intros (member & ? & ? & ?). right. right. exists member. tauto.
      * intros [?|[?|(member & Hne & Hleads & [Hassign|Htodo])]]; try done.
        -- apply not_true_iff_false in Hmem. destruct Hmem.
           apply member_in_assign_spec. by exists member.
        -- by exists member.
Qed.

Lemma lead_visibility_witness :
  visible (Examples.manager_site true) "mona@example.com"
          {[ "name" := VStr "LEAD-1" ]} = true
  ↔ holds_open_assignment (Examples.manager_site true) "CRM Lead" "LEAD-1"
                          "mona@example.com"
    ∨ ∃ member, leads (Examples.manager_site true) "mona@example.com" member
                ∧ holds_open_assignment (Examples.manager_site true)
                                        "CRM Lead" "LEAD-1" member.
Proof.
  assert (PyStr.truthy "mona@example.com" = true) as Huser by reflexivity.
  assert ("mona@example.com" ≠ "Guest") as Hguest by discriminate.
  assert (({[ "name" := VStr "LEAD-1" ]} : gmap string value) !! "name"
          = Some (VStr "LEAD-1")) as Hname by reflexivity.
  destruct (lead_visibility (Examples.manager_site true) "mona@example.com"
              "LEAD-1" "read" {[ "name" := VStr "LEAD-1" ]}
              {| doctype := "CRM Lead"; name := "LEAD-1"; _assign := None |}
              Huser Hguest Hname) as [_ Hother].
  apply Hother.
  change (get_roles (Examples.manager_site true) "mona@example.com")
    with ["Sales Manager"].
  intros Hin. apply list_elem_of_singleton in Hin. discriminate.
Defined.

(** C6 as stated fails for Guest, who sees nothing whatever assignment is
    recorded: Guest is not a System Manager and an open assignment on LEAD-2
    names Guest, yet the row is not visible. *)
Lemma guest_sees_nothing :
  ("System Manager" ∉ get_roles (Examples.manager_site true) "Guest")
  ∧ holds_open_assignment (Examples.manager_site true) "CRM Lead" "LEAD-2"
                          "Guest"
  ∧ visible (Examples.manager_site true) "Guest" {[ "name" := VStr "LEAD-2" ]}
    = false.
Proof.
  split; [|split].
  - change (get_roles (Examples.manager_site true) "Guest") with (@nil string).
    apply not_elem_of_nil.
  - exists (Examples.open_todo "CRM Lead" "LEAD-2" "Guest").
    split; [|done]. unfold Examples.manager_site, Examples.site_with. simpl.
    set_solver.
  - reflexivity.
Qed.

End LeadsPermissionsFacts.


(** ** The task handlers and the OAuth configuration *)

Module MobileApiFacts.
Import Frappe MobileApi FrappeFacts.

(** *** Pagination *)

(** A page size is never zero and a page number is at least one. *)
Lemma page_size_of_nonzero (limit : Z) : page_size_of limit ≠ 0%Z.
Proof. unfold page_size_of. destruct (Z.eqb_spec limit 0); lia. Qed.

Lemma page_of_positive (page : Z) : (1 ≤ page_of page)%Z.
Proof.
  unfold page_of. destruct (Z.eqb_spec page 0); simpl.
  - lia.
  - destruct (Z.ltb_spec page 1); lia.
Qed.

(** The list-backed store answers a page of positive size as the pagination
    property assumes, when [ORDER BY] only reorders. *)
Lemma get_all_tasks_length (s : site) (filters : list db_filter)
    (fields : list string) (order_by : string) (start limit : Z) :
  (∀ o rows, length (db_order s o rows) = length rows) →
  (0 ≤ start)%Z → (0 ≤ limit)%Z →
  Z.of_nat (length (get_all_tasks s filters fields order_by start limit))
  = Z.min limit (Z.max 0 (count_tasks s filters - start)).
Proof.
  intros Horder Hstart Hlimit. unfold get_all_tasks, count_tasks.
  rewrite length_fmap, length_take, length_drop, Horder. lia.
Qed.

(** C5: whenever the store answers page [P] of size [L] with
    [min(L, max(0, T - (P-1)L))] rows, [has_next] is true exactly when
    [P * L < T]; the offset asked of the store is [(P-1) * L]; the rows and
    the total come from two queries with the same filters. [P] and [L] are
    the page and page size of the response. *)
Theorem filter_tasks_has_next (s : site)
    (date_from date_to importance status : value) (limit page : Z)
    (order_by : string) :
  let r := filter_tasks s date_from date_to importance status limit page
                        order_by in
  let filters := build_filters date_from date_to importance status in
  Z.of_nat (length (data r))
  = Z.min (page_size r)
          (Z.max 0 (total r - (MobileApi.page r - 1) * page_size r)) →
  (has_next r = true ↔ (MobileApi.page r * page_size r < total r)%Z)
  ∧ page_start limit page = ((MobileApi.page r - 1) * page_size r)%Z
  ∧ data r = get_compact_task s <$>
               get_all_tasks s filters (_safe_fields s base_fields) order_by
                             (page_start limit page) (page_size r)
  ∧ total r = count_tasks s filters.
Proof.
  intros r filters Hrows. subst r filters.
  unfold filter_tasks in *. cbn [data page_size total has_next MobileApi.page] in *.
  split; [|by split].
  rewrite Z.ltb_lt. lia.
Qed.

Lemma filter_tasks_has_next_witness :
  has_next (filter_tasks Examples.tasks_site VNull VNull VNull VNull 2 1
                         "modified desc") = true
  ↔ (1 * 2 < 3)%Z.
Proof.
  apply (filter_tasks_has_next Examples.tasks_site VNull VNull VNull VNull 2 1
                               "modified desc").
  vm_compute. reflexivity.
Defined.

(** *** Task creation *)

Lemma set_if_given_lookup (k k' : string) (v : value)
    (doc : gmap string value) :
  k ≠ k' → set_if_given k v doc !! k' = doc !! k'.
Proof.
  intros Hk. destruct v; simpl; by rewrite ?lookup_insert_ne.
Qed.

Lemma new_task_status (a b c d e : value) :
  ({[ "doctype" := a; "task_type" := b; "status" := c; "priority" := d;
      "start_date" := e ]} : gmap string value) !! "status" = Some c.
Proof. by simplify_map_eq. Qed.

Lemma new_task_priority (a b c d e : value) :
  ({[ "doctype" := a; "task_type" := b; "status" := c; "priority" := d;
      "start_date" := e ]} : gmap string value) !! "priority" = Some d.
Proof. by simplify_map_eq. Qed.

(** Creation returns once the task type is given and the doctype accepts the
    document. *)
Lemma create_task_returns (s : site)
    (title status priority start_date task_type description assigned_to
     due_date : value) :
  truthy task_type = true →
  (∀ doc, task_insert_error s doc = None) →
  ∃ c s', create_task s title status priority start_date task_type
                      description assigned_to due_date = (Ok c, s').
Proof.
  intros Htype Haccept. unfold create_task, insert_task.
  rewrite Htype, Haccept. simpl. eauto.
Qed.

(** C9: the compact task a creation returns has status "Todo" when the
    status was omitted and priority "Medium" when the priority was omitted,
    and the given status and priority otherwise. Omitted is what the code
    tests: [None] or an empty value. *)
Theorem create_task_defaults (s s' : site)
    (title status priority start_date task_type description assigned_to
     due_date : value) (c : compact) :
  create_task s title status priority start_date task_type description
              assigned_to due_date = (Ok c, s') →
  truthy task_type = true
  ∧ (truthy status = false → c_status c = VStr "Todo")
  ∧ (truthy priority = false → c_priority c = VStr "Medium")
  ∧ (truthy status = true → truthy priority = true →
       c_status c = status ∧ c_priority c = priority).
Proof.
  unfold create_task, insert_task.
  destruct (truthy task_type) eqn:Htype; simpl; [|done].
  destruct (task_insert_error s _); [done|].
  intros [= <- _]. split; [done|].
  cbn [get_compact_task c_status c_priority]. unfold get.
  rewrite !lookup_insert_ne, !set_if_given_lookup by done.
  rewrite new_task_status, new_task_priority. simpl.
  split; [|split].
  - by intros ->.
  - by intros ->.
  - by intros -> ->.
Qed.

Lemma create_task_defaults_witness :
  ∃ c s', create_task Examples.tasks_site (VStr "Call") VNull VNull VNull
                      (VStr "Call") VNull VNull VNull = (Ok c, s')
          ∧ c_status c = VStr "Todo" ∧ c_priority c = VStr "Medium".
Proof.
  destruct (create_task Examples.tasks_site (VStr "Call") VNull VNull VNull
                        (VStr "Call") VNull VNull VNull) as [[c|e] s'] eqn:Hc;
    [|vm_compute in Hc; discriminate].
  exists c, s'. split; [done|].
  destruct (create_task_defaults _ _ _ _ _ _ _ _ _ _ _ Hc)
    as (_ & Hstatus & Hpriority & _).
  split; [by apply Hstatus|by apply Hpriority].
Defined.

(** *** Host validation *)

Lemma truthy_nonempty (t : string) : PyStr.truthy t = true ↔ t ≠ "".
Proof. by destruct t. Qed.

(** The check against the domain list, once request, host and site name are
    there. *)
Lemma allowed_domains_check (l : local) (host site : string) :
  bind (allowed_domains_for l host site)
       (λ allowed_domains,
         if bool_decide (host ∈ allowed_domains) then Ok tt
         else Raise (ValidationError (msg_denied host site)))
  = Ok tt
  ↔ host_accepted l host site.
Proof.
  unfold allowed_domains_for, host_accepted, explicit_domains.
  assert (∀ t : string,
            (if bool_decide (t ∈ [t]) then Ok tt
             else Raise (ValidationError (msg_denied t site))) = Ok tt)
    as Hself.
  { intros t. rewrite bool_decide_eq_true_2; [done|]. set_solver. }
  assert (bind (if PyStr.truthy (lower_strip site)
                   && String.eqb host (lower_strip site)
                then Ok [lower_strip site]
                else Raise (ValidationError msg_config_error))
            (λ allowed_domains,
              if bool_decide (host ∈ allowed_domains) then Ok tt
              else Raise (ValidationError (msg_denied host site))) = Ok tt
          ↔ host = lower_strip site ∧ host ≠ "") as Hexc.
  { destruct (String.eqb_spec host (lower_strip site)) as [->|Hne].
    - rewrite andb_true_r.
      destruct (PyStr.truthy (lower_strip site)) eqn:Ht; simpl.
      + rewrite Hself. apply truthy_nonempty in Ht. tauto.
      + split; [done|]. intros [_ Hne].
        apply truthy_nonempty in Hne. congruence.
    - rewrite andb_false_r. simpl. split; [done|tauto]. }
  destruct (site_config l) as [cfg|]; [|done].
  destruct (configured_domains cfg) as [[|d ds]|]; [| |done].
  - destruct (String.eqb_spec host (lower_strip site)) as [->|Hne].
    + simpl. by rewrite Hself.
    + rewrite Hexc. tauto.
  - simpl. case_bool_decide; split; done.
Qed.

(** The host check passes exactly when there is a request with a non-empty
    host and a site name, and the normalised host passes [host_accepted]. *)
Lemma validate_host_iff (l : local) :
  _validate_host l = Ok tt
  ↔ ∃ headers raw site,
      request l = Some headers ∧ request_host headers = Some raw ∧ raw ≠ ""
      ∧ site_name l = Some site ∧ site ≠ ""
      ∧ host_accepted l (normalize_host raw) site.
Proof.
  unfold _validate_host. split.
  - destruct (request l) as [headers|]; [|done].
    destruct (request_host headers) as [raw|] eqn:Hhost; [|done].
    destruct (PyStr.truthy raw) eqn:Hraw; simpl; [|done].
    destruct (site_name l) as [site|]; [|done].
    destruct (PyStr.truthy site) eqn:Hsite; simpl; [|done].
    intros Hcheck. apply allowed_domains_check in Hcheck.
    exists headers, raw, site.
    apply truthy_nonempty in Hraw, Hsite. done.
  - intros (headers & raw & site & -> & -> & Hraw & -> & Hsite & Hacc).
    apply truthy_nonempty in Hraw, Hsite. rewrite Hraw, Hsite. simpl.
    by apply allowed_domains_check.
Qed.

(** C1, as the code has it. The host looked at is the first entry of
    X-Forwarded-Host when that header is there, else Host, lower-cased,
    cut at the port and stripped. The configuration is returned only when
    there is a request with such a host and a site name, and the host is one
    of the configured domains or, when none is configured or the
    configuration cannot be read, the host equals the lower-cased site name.
    Every other call is refused with the validation error, leaves the site
    untouched and returns no client id. With the host accepted, the
    configuration is returned as soon as the settings can be provided with a
    client id. *)
Theorem get_oauth_config_host (l : local) :
  (∀ cfg l', get_oauth_config l = (Ok cfg, l') →
     ∃ headers raw site,
       request l = Some headers ∧ request_host headers = Some raw ∧ raw ≠ ""
       ∧ site_name l = Some site ∧ site ≠ ""
       ∧ host_accepted l (normalize_host raw) site)
  ∧ (∀ e, _validate_host l = Raise e → get_oauth_config l = (Raise e, l))
  ∧ (∀ st l', _validate_host l = Ok tt →
       _ensure_mobile_oauth_settings l = (Ok st, l') → client_id st ≠ "" →
       ∃ cfg, get_oauth_config l = (Ok cfg, l')
              ∧ client_id cfg = client_id st).
Proof.
  unfold get_oauth_config. split; [|split].
  - intros cfg l' Hcfg. apply validate_host_iff.
    destruct (_validate_host l) as [[]|e]; [done|discriminate].
  - by intros e ->.
  - intros st l' -> -> Hid. apply truthy_nonempty in Hid. rewrite Hid. simpl.
    eauto.
Qed.

Lemma get_oauth_config_host_witness :
  ∃ cfg, get_oauth_config
           (Examples.oauth_local "CRM.Example.com:8000"
              {[ "domains" := CList [CStr "crm.example.com"] ]})
         = (Ok cfg, Examples.oauth_local "CRM.Example.com:8000"
                      {[ "domains" := CList [CStr "crm.example.com"] ]})
         ∧ client_id cfg = "abc123".
Proof.
  destruct (get_oauth_config_host
              (Examples.oauth_local "CRM.Example.com:8000"
                 {[ "domains" := CList [CStr "crm.example.com"] ]}))
    as (_ & _ & Hok).
  apply (Hok {| client_id := "abc123"; scope := "all openid";
                redirect_uri := "app.trust://oauth2redirect" |}).
  - vm_compute. reflexivity.
  - vm_compute. reflexivity.
  - discriminate.
Defined.

(** A host that is not configured is refused: with a domain configured,
    neither localhost nor the bare site name passes. *)
Lemma unlisted_hosts_refused :
  (∃ e, get_oauth_config
          (Examples.oauth_local "localhost"
             {[ "domains" := CList [CStr "portal.example.com"] ]})
        = (Raise e, Examples.oauth_local "localhost"
                      {[ "domains" := CList [CStr "portal.example.com"] ]}))
  ∧ (∃ e, get_oauth_config
            (Examples.oauth_local "crm.example.com"
               {[ "domains" := CList [CStr "portal.example.com"] ]})
          = (Raise e, Examples.oauth_local "crm.example.com"
                        {[ "domains" := CList [CStr "portal.example.com"] ]}))
  ∧ (∃ e, get_oauth_config (Examples.oauth_local "facebook.com" ∅)
          = (Raise e, Examples.oauth_local "facebook.com" ∅)).
Proof.
  split; [|split]; eexists; vm_compute; reflexivity.
Qed.

(** C1 as stated fails: on a site that configures no domain at all, a
    request whose host is the bare site name is given the configuration. *)
Lemma bare_site_name_trusted :
  explicit_domains (Examples.oauth_local "crm.example.com" ∅) = Some []
  ∧ ∃ cfg, get_oauth_config (Examples.oauth_local "crm.example.com" ∅)
           = (Ok cfg, Examples.oauth_local "crm.example.com" ∅)
           ∧ client_id cfg = "abc123".
Proof.
  split; [reflexivity|]. eexists. split; [vm_compute; reflexivity|reflexivity].
Qed.

End MobileApiFacts.


(** ** The notification handlers that write *)

Module NotificationsHandlersFacts.
Import Frappe Notifications NotificationsHandlers FrappeFacts.

Lemma filter_fmap_stable {A} (P : A → Prop) `{!∀ x, Decision (P x)}
    (f : A → A) (l : list A) :
  (∀ x, P (f x) ↔ P x) → filter P (f <$> l) = f <$> filter P l.
Proof.
  intros Hf. induction l as [|x l IH]; [done|].
  rewrite fmap_cons, !filter_cons, IH.
  destruct (decide (P x)) as [Hx|Hx].
  - rewrite decide_True by by apply Hf. done.
  - rewrite decide_False by by rewrite Hf. done.
Qed.

Lemma filter_all {A} (P : A → Prop) `{!∀ x, Decision (P x)} (l : list A) :
  (∀ x, P x) → filter P l = l.
Proof.
  intros HP. induction l as [|x l IH]; [done|].
  rewrite filter_cons, decide_True by done. by rewrite IH.
Qed.

Lemma insert_by_fmap {A} (ge : A → A → bool) (f : A → A) (x : A)
    (l : list A) :
  (∀ a b, ge (f a) (f b) = ge a b) →
  insert_by ge (f x) (f <$> l) = f <$> insert_by ge x l.
Proof.
  intros Hf. induction l as [|y l IH]; [done|].
  simpl. rewrite Hf. destruct (ge x y); [done|]. simpl. f_equal. apply IH.
Qed.

Lemma sort_by_fmap {A} (ge : A → A → bool) (f : A → A) (l : list A) :
  (∀ a b, ge (f a) (f b) = ge a b) →
  sort_by ge (f <$> l) = f <$> sort_by ge l.
Proof.
  intros Hf. induction l as [|x l IH]; [done|].
  simpl. rewrite <- insert_by_fmap by done. f_equal. apply IH.
Qed.

(** A write of a flag column and the stamps leaves every other column. *)
Lemma written_lookup (s : site) (r : gmap string value) (c k : string)
    (v : value) :
  k ≠ c → k ≠ "modified" → k ≠ "modified_by" →
  <[c := v]> (stamp s r) !! k = r !! k.
Proof.
  intros Hc Hm Hb. unfold stamp. by rewrite !lookup_insert_ne.
Qed.

Lemma stamp_lookup (s : site) (r : gmap string value) (k : string) :
  k ≠ "modified" → k ≠ "modified_by" → stamp s r !! k = r !! k.
Proof. intros Hm Hb. unfold stamp. by rewrite !lookup_insert_ne. Qed.

Lemma seen_column_cases (s : site) (c : string) :
  _seen_column_name s = Some c → c = "seen" ∨ c = "read".
Proof.
  unfold _seen_column_name.
  destruct (_has s "seen"); [intros [= <-]; by left|].
  destruct (_has s "read"); [intros [= <-]; by right|done].
Qed.

Section MarkRow.
Context (s : site) (name c : string) (Hc : c = "seen" ∨ c = "read").

Local Abbreviation marked := (write_row s name c (VInt 1)).

Lemma marked_lookup (r : gmap string value) (k : string) :
  k ≠ c → k ≠ "modified" → k ≠ "modified_by" → marked r !! k = r !! k.
Proof.
  intros. unfold write_row. destruct (col_is r "name" name); [|done].
  by apply written_lookup.
Qed.

Lemma marked_rows_of (user : string) (rows : list (gmap string value))
    (cols : gset string) :
  filter (λ r, r !! "for_user" = Some (VStr user)
               ∨ r !! "owner" = Some (VStr user)
               ∨ ("from_user" ∈ cols ∧ r !! "from_user" = Some (VStr user)))
         (marked <$> rows)
  = marked <$>
      filter (λ r, r !! "for_user" = Some (VStr user)
                   ∨ r !! "owner" = Some (VStr user)
                   ∨ ("from_user" ∈ cols
                      ∧ r !! "from_user" = Some (VStr user)))
             rows.
Proof.
  apply filter_fmap_stable. intros r.
  rewrite !marked_lookup by (destruct Hc; by subst). done.
Qed.

Lemma marked_newest_first (rows : list (gmap string value)) :
  newest_first (marked <$> rows) = marked <$> newest_first rows.
Proof.
  unfold newest_first. apply sort_by_fmap. intros a b. unfold get.
  rewrite !marked_lookup by (destruct Hc; by subst). done.
Qed.

Lemma marked_seen (r : gmap string value) :
  _bool_seen (marked r) (Some c)
  = bool_decide (r !! "name" = Some (VStr name)) || _bool_seen r (Some c).
Proof.
  unfold write_row, col_is. case_bool_decide; simpl; [|done].
  by rewrite lookup_insert_eq.
Qed.

(** Marking takes the unseen rows called [name] out of the unseen rows. *)
Lemma marked_unseen_count (rows : list (gmap string value)) :
  (length (filter (λ r, _bool_seen r (Some c) = false) (marked <$> rows))
   + length (filter (λ r, r !! "name" = Some (VStr name)
                          ∧ _bool_seen r (Some c) = false) rows)
   = length (filter (λ r, _bool_seen r (Some c) = false) rows))%nat.
Proof.
  induction rows as [|r rows IH]; [done|].
  rewrite fmap_cons, !filter_cons, marked_seen.
  destruct (decide (r !! "name" = Some (VStr name))) as [Hn|Hn];
    [rewrite bool_decide_eq_true_2 by done
    |rewrite bool_decide_eq_false_2 by done];
    cbn [orb]; destruct (_bool_seen r (Some c)) eqn:Hseen;
    repeat case_decide; rewrite ?length_cons;
    solve [lia | done | tauto | intuition congruence].
Qed.

End MarkRow.

(** The count after the flag of [name] is set. *)
Lemma count_after_mark (s : site) (name c user : string) :
  _seen_column_name s = Some c →
  _get_unseen_count_for
    (set_nlog_rows s (db_set_value s (nlog_rows s) name c (VInt 1))) user
  = (_get_unseen_count_for s user
     - unseen_named s name (counted_rows s user))%Z.
Proof.
  intros Hcol. pose proof (seen_column_cases s c Hcol) as Hc.
  rewrite !NotificationsFacts.unseen_count_unfold.
  unfold unseen_in, unseen_named, counted_rows, legacy_unread, rows_of,
    db_set_value.
  change (_seen_column_name (set_nlog_rows s _)) with (_seen_column_name s).
  cbn [nlog_rows nlog_columns crm_notifications set_nlog_rows].
  rewrite Hcol.
  rewrite (marked_rows_of s name c Hc), (marked_newest_first s name c Hc).
  rewrite <- fmap_take.
  pose proof (marked_unseen_count s name c Hc
                (take 500 (newest_first
                   (filter (λ r, r !! "for_user" = Some (VStr user)
                                 ∨ r !! "owner" = Some (VStr user)
                                 ∨ ("from_user" ∈ nlog_columns s
                                    ∧ r !! "from_user" = Some (VStr user)))
                           (nlog_rows s))))) as Hcount.
  lia.
Qed.

(** Stamping rows changes no count. *)
Lemma count_after_touch (s : site) (name user : string) :
  _seen_column_name s = None →
  _get_unseen_count_for (set_nlog_rows s (db_touch s (nlog_rows s) name)) user
  = _get_unseen_count_for s user.
Proof.
  intros Hcol. rewrite !NotificationsFacts.unseen_count_unfold.
  unfold unseen_in, legacy_unread.
  change (_seen_column_name (set_nlog_rows s _)) with (_seen_column_name s).
  rewrite Hcol. cbn [crm_notifications set_nlog_rows]. f_equal. f_equal.
  rewrite !filter_all by done. rewrite !length_take.
  unfold newest_first. rewrite !sort_by_length. f_equal.
  unfold rows_of, db_touch. cbn [nlog_rows nlog_columns set_nlog_rows].
  rewrite filter_fmap_stable; [by rewrite length_fmap|].
  intros r. destruct (col_is r "name" name); [|done].
  by rewrite !stamp_lookup.
Qed.



(** The outcome of the Notification Log branch. *)
Lemma mark_log_seen_outcome (s s' : site) (name user : string)
    (pubs : list publish) :
  mark_log_seen s name user = (Ok tt, s', pubs) →
  pubs = [_broadcast_count s' user]
  ∧ crm_notifications s' = crm_notifications s
  ∧ ∀ u, _get_unseen_count_for s' u
         = (_get_unseen_count_for s u
            - match _seen_column_name s with
              | Some _ => unseen_named s name (counted_rows s u)
              | None => 0
              end)%Z.
Proof.
  unfold mark_log_seen. destruct (_seen_column_name s) as [c|] eqn:Hcol.
  - intros [= <- <-]. split; [done|]. split; [done|].
    intros u. by apply count_after_mark.
  - destruct (exists_named (nlog_rows s) name); [|done].
    intros [= <- <-]. split; [done|]. split; [done|].
    intros u. rewrite count_after_touch by done. lia.
Qed.

(** X1: when [mark_portal_seen] succeeds on a log notification, the unseen
    count of the session user drops by the number of unseen rows of that
    name among the rows the count looks at (by nothing when the log has no
    flag column), and exactly one message is pushed, to the session user,
    carrying the new count. *)
Theorem mark_portal_seen_log_count (s s' : site) (name : string)
    (pubs : list publish) :
  mark_portal_seen s name "Notification Log" = (Ok tt, s', pubs) →
  get_unseen_count s'
  = (get_unseen_count s
     - match _seen_column_name s with
       | Some _ => unseen_named s name (counted_rows s (session_user s))
       | None => 0
       end)%Z
  ∧ pubs = [ {| pub_event := "crm_portal_notification"; pub_type := "count";
                pub_unseen := get_unseen_count s';
                pub_user := session_user s |} ].
Proof.
  unfold mark_portal_seen. destruct (PyStr.truthy name); [|done]. simpl.
  intros Hmark. pose proof Hmark as Hsame.
  apply mark_log_seen_outcome in Hmark as (-> & _ & Hcount).
  assert (session_user s' = session_user s) as Huser.
  { unfold mark_log_seen in Hsame.
    destruct (_seen_column_name s); [by injection Hsame as <- |].
    destruct (exists_named (nlog_rows s) name); [|done].
    by injection Hsame as <-. }
  unfold get_unseen_count. rewrite Huser. split; [apply Hcount|done].
Qed.

Lemma mark_portal_seen_log_count_witness :
  get_unseen_count MoreExamples.three_rows_marked
  = (get_unseen_count Examples.three_rows_site - 1)%Z.
Proof.
  destruct (mark_portal_seen_log_count Examples.three_rows_site
              MoreExamples.three_rows_marked "n1"
              [_broadcast_count MoreExamples.three_rows_marked
                                "amal@example.com"]) as [Hcount _].
  - reflexivity.
  - rewrite Hcount. reflexivity.
Defined.

(** X2: a call of [mark_portal_seen] that raises leaves the site as it was
    and pushes nothing; a call that succeeds pushes exactly one message. It
    raises for an empty name and for a source other than the two tables. *)
Theorem mark_portal_seen_outcomes (s : site) (name source : string) :
  match mark_portal_seen s name source with
  | (Ok _, _, pubs) => length pubs = 1%nat
  | (Raise _, s', pubs) => s' = s ∧ pubs = []
  end
  ∧ (name = "" →
     (mark_portal_seen s name source).1.1
     = Raise (ValidationError "Notification name is required"))
  ∧ (name ≠ "" → source ≠ "Notification Log" → source ≠ "CRM Notification" →
     (mark_portal_seen s name source).1.1
     = Raise (ValidationError ("Unknown source: " ++ source))).
Proof.
  split; [|split].
  - unfold mark_portal_seen, mark_log_seen.
    destruct (PyStr.truthy name); simpl; [|done].
    destruct (String.eqb source "Notification Log").
    { destruct (_seen_column_name s); [done|].
      by destruct (exists_named (nlog_rows s) name). }
    destruct (String.eqb source "CRM Notification"); [|done].
    destruct (crm_notifications s) as [table|]; [|done].
    by destruct (exists_named table name).
  - by intros ->.
  - intros Hname Hlog Hcrm. unfold mark_portal_seen.
    destruct name; [done|]. simpl.
    apply String.eqb_neq in Hlog, Hcrm. by rewrite Hlog, Hcrm.
Qed.

Lemma mark_portal_seen_outcomes_witness :
  (mark_portal_seen Examples.three_rows_site "n1" "Inbox").1.1
  = Raise (ValidationError "Unknown source: Inbox").
Proof.
  destruct (mark_portal_seen_outcomes Examples.three_rows_site "n1" "Inbox")
    as (_ & _ & Hunknown).
  apply Hunknown; discriminate.
Defined.









(** [mark_seen] is [mark_portal_seen] on the Notification Log: same
    result, same site, same message, for every name. *)
Lemma mark_seen_is_mark_portal_seen (s : site) (name : string) :
  mark_seen s name = mark_portal_seen s name "Notification Log".
Proof. reflexivity. Qed.

(** *** The raw list *)

Lemma list_logs_row_keys (seen_col : option string) (r : gmap string value) :
  (∀ c, seen_col = Some c → list_logs_row seen_col r !! c = None)
  ∧ (seen_col ≠ Some "seen" →
     list_logs_row seen_col r !! "seen"
     = Some (VBool (_bool_seen r seen_col))).
Proof.
  unfold list_logs_row. destruct seen_col as [c|].
  - split.
    + intros ? [= <-]. case_bool_decide as Hin; [apply lookup_delete_eq|].
      by apply eq_None_not_Some.
    + intros Hc. assert (c ≠ "seen") as Hne by congruence.
      case_bool_decide; rewrite ?lookup_delete_ne by done;
        by rewrite lookup_insert_eq.
  - split; [done|]. intros _. by rewrite lookup_insert_eq.
Qed.

(** X4: no row of [list_logs] carries the flag column of the log. So when
    that column is itself called [seen], the rows have no [seen] key at
    all; otherwise every row has a boolean under [seen]. *)
Theorem list_logs_seen_key (s : site) (limit : Z) :
  Forall (λ d, (∀ c, _seen_column_name s = Some c → d !! c = None)
               ∧ (_seen_column_name s ≠ Some "seen" →
                  ∃ b, d !! "seen" = Some (VBool b)))
         (list_logs s limit).
Proof.
  unfold list_logs. apply Forall_fmap, Forall_forall. intros r _. simpl.
  destruct (list_logs_row_keys (_seen_column_name s) r) as [Hcol Hseen].
  split; [done|]. intros Hne. eauto.
Qed.

Lemma list_logs_seen_key_witness :
  Forall (λ d, d !! "seen" = None) (list_logs Examples.three_rows_site 30).
Proof.
  eapply Forall_impl; [apply (list_logs_seen_key Examples.three_rows_site 30)|].
  intros d [Hcol _]. apply Hcol. reflexivity.
Defined.

(** *** Marking the legacy rows *)

Lemma for_each_names (rows : list (gmap string value)) (names : list string) :
  for_each row_name rows = Ok names →
  Forall (λ r, ∃ n, n ∈ names ∧ r !! "name" = Some (VStr n)) rows.
Proof.
  revert names. induction rows as [|r rows IH]; intros names; [constructor|].
  simpl. unfold row_name at 1.
  destruct (get r "name") as [| | |n|] eqn:Hn; try done. simpl.
  destruct (for_each row_name rows) as [ns|]; [|done]. simpl.
  intros [= <-]. constructor.
  - exists n. split; [by left|].
    unfold get in Hn. by destruct (r !! "name") as [?|]; simplify_eq/=.
  - eapply Forall_impl; [by apply IH|].
    intros r' (n' & ? & ?). exists n'. split; [by right|done].
Qed.

Section MarkAll.
Context (s : site).

Local Abbreviation mark_all names r :=
  (foldl (λ r n, write_row s n "read" (VInt 1) r) r names).

Lemma mark_all_table (names : list string) (table : list (gmap string value)) :
  foldl (λ t n, db_set_value s t n "read" (VInt 1)) table names
  = (λ r, mark_all names r) <$> table.
Proof.
  revert table. induction names as [|n names IH]; intros table; simpl.
  - by rewrite list_fmap_id.
  - rewrite IH. unfold db_set_value. by rewrite <- list_fmap_compose.
Qed.

Lemma write_read_lookup (n k : string) (r : gmap string value) :
  k ≠ "read" → k ≠ "modified" → k ≠ "modified_by" →
  write_row s n "read" (VInt 1) r !! k = r !! k.
Proof.
  intros. unfold write_row. destruct (col_is r "name" n); [|done].
  by apply written_lookup.
Qed.

Lemma mark_all_lookup (names : list string) (k : string)
    (r : gmap string value) :
  k ≠ "read" → k ≠ "modified" → k ≠ "modified_by" →
  mark_all names r !! k = r !! k.
Proof.
  intros. revert r. induction names as [|n names IH]; intros r; [done|].
  simpl. by rewrite IH, write_read_lookup.
Qed.

Lemma write_read_unread (n : string) (r : gmap string value) :
  write_row s n "read" (VInt 1) r !! "read" = Some (VInt 0) →
  r !! "read" = Some (VInt 0) ∧ r !! "name" ≠ Some (VStr n).
Proof.
  unfold write_row, col_is. case_bool_decide as Hname; [|done].
  by rewrite lookup_insert_eq.
Qed.

(** A row still unread after the loop was unread before and has none of the
    names. *)
Lemma mark_all_unread (names : list string) (r : gmap string value) :
  mark_all names r !! "read" = Some (VInt 0) →
  r !! "read" = Some (VInt 0)
  ∧ ∀ n, n ∈ names → r !! "name" ≠ Some (VStr n).
Proof.
  revert r. induction names as [|n names IH]; intros r; simpl.
  - intros Hr. split; [done|]. intros n Hn. by apply elem_of_nil in Hn.
  - intros Hr. apply IH in Hr as [Hread Hnames].
    apply write_read_unread in Hread as [Hread Hn].
    split; [done|]. intros n' [->|Hn']%elem_of_cons; [done|].
    specialize (Hnames n' Hn'). by rewrite write_read_lookup in Hnames.
Qed.

End MarkAll.

Lemma filter_none {A} (P : A → Prop) `{!∀ x, Decision (P x)} (l : list A) :
  Forall (λ x, ¬ P x) l → filter P l = [].
Proof.
  induction 1 as [|x l Hx _ IH]; [done|].
  by rewrite filter_cons, decide_False.
Qed.

(** X5: when [mark_as_read] succeeds, no row is left for it to mark: no
    unread legacy row addressed to the user (and about [doc], when one is
    given) remains. Without [doc] the legacy part of the user's count is
    zero afterwards. The log is not touched, and one message with the new
    count goes to the user. *)
Theorem mark_as_read_marks_all (s s' : site) (user doc : string) (b : bool)
    (pubs : list publish) :
  mark_as_read s user doc = (Ok b, s', pubs) →
  let u := if PyStr.truthy user then user else session_user s in
  (∃ table', crm_notifications s' = Some table' ∧ to_mark table' u doc = [])
  ∧ (doc = "" → legacy_unread s' u = 0%Z)
  ∧ nlog_rows s' = nlog_rows s
  ∧ pubs = [_broadcast_count s' u].
Proof.
  intros Hmark u. unfold mark_as_read in Hmark. fold u in Hmark.
  destruct (crm_notifications s) as [table|] eqn:Htable; [|done].
  destruct (for_each row_name (to_mark table u doc)) as [names|] eqn:Hnames;
    [|done].
  injection Hmark as <- <- <-.
  apply for_each_names in Hnames. rewrite mark_all_table in *.
  assert (to_mark
            ((λ r, foldl (λ r n, write_row s n "read" (VInt 1) r) r names)
               <$> table) u doc = []) as Hnone.
  { apply filter_none, Forall_fmap, Forall_forall.
    intros r Hr (Huser & Hread & Hdoc). simpl in *.
    unfold col_is in *. rewrite !mark_all_lookup in * by done.
    apply mark_all_unread in Hread as [Hread Hfresh].
    assert (r ∈ to_mark table u doc) as Hin.
    { apply list_elem_of_filter. by repeat split. }
    rewrite Forall_forall in Hnames.
    destruct (Hnames r Hin) as (n & Hn & Hname). by apply (Hfresh n). }
  split; [eauto|]. split; [|done].
  intros ->. unfold legacy_unread, count_legacy_unread.
  cbn [crm_notifications set_crm_notifications].
  unfold to_mark in Hnone.
  erewrite list_filter_iff; [by rewrite Hnone|].
  intros r. simpl. split.
  - intros [Huser Hread]. by repeat split.
  - intros (Huser & Hread & _). done.
Qed.

Lemma mark_as_read_marks_all_witness :
  legacy_unread MoreExamples.three_rows_read "amal@example.com" = 0%Z.
Proof.
  destruct (mark_as_read_marks_all Examples.three_rows_site
              MoreExamples.three_rows_read "" "" true
              [_broadcast_count MoreExamples.three_rows_read
                                "amal@example.com"])
    as (_ & Hzero & _).
  - reflexivity.
  - by apply Hzero.
Defined.

(** *** The page of the merged list *)

(** X6: for a limit that is not negative, the page of
    [list_portal_notifications] holds the newest of the merged rows: the
    merged rows are the page and the rows left out, and no row left out
    has a greater sort key than a row of the page. *)
Theorem list_portal_notifications_newest (s : site) (limit include_legacy : Z)
    (out : list portal) :
  list_portal_notifications s limit include_legacy = Ok out →
  (0 ≤ limit)%Z →
  ∃ (m : list portal) (kept dropped : list (Z * portal)),
    merged s limit include_legacy = Ok m
    ∧ sorted_with_keys s m = (kept ++ dropped)%list
    ∧ out = kept.*2
    ∧ m ≡ₚ (out ++ dropped.*2)%list
    ∧ ∀ k d, k ∈ kept → d ∈ dropped → (d.1 ≤ k.1)%Z.
Proof.
  unfold list_portal_notifications. intros Hout Hlimit.
  apply bind_Ok in Hout as (m & Hm & Hout). injection Hout as <-.
  exists m, (take (Z.to_nat limit) (sorted_with_keys s m)),
    (drop (Z.to_nat limit) (sorted_with_keys s m)).
  assert (slice_to (sorted_with_keys s m).*2 limit
          = (take (Z.to_nat limit) (sorted_with_keys s m)).*2) as Hslice.
  { unfold slice_to. destruct (Z.leb_spec 0 limit); [|lia].
    by rewrite fmap_take. }
  split; [done|]. split; [by rewrite take_drop|]. split; [done|]. split.
  - rewrite Hslice, <- fmap_app, take_drop. unfold sorted_with_keys.
    rewrite sort_by_Permutation. by rewrite NotificationsFacts.sort_keys_snd.
  - intros k d Hk Hd.
    pose proof (NotificationsFacts.sorted_with_keys_sorted s m) as Hsorted.
    rewrite <- (take_drop (Z.to_nat limit) (sorted_with_keys s m)),
      fmap_app in Hsorted.
    apply (StronglySorted_app_1_elem_of _ _ _ k.1 d.1) in Hsorted; [done| |];
      by apply list_elem_of_fmap_2.
Qed.

Lemma list_portal_notifications_newest_witness :
  ∃ (m : list portal) (kept dropped : list (Z * portal)),
    merged Examples.three_rows_site 2 1 = Ok m
    ∧ sorted_with_keys Examples.three_rows_site m = (kept ++ dropped)%list
    ∧ Examples.three_rows_page = kept.*2
    ∧ m ≡ₚ (Examples.three_rows_page ++ dropped.*2)%list
    ∧ ∀ k d, k ∈ kept → d ∈ dropped → (d.1 ≤ k.1)%Z.
Proof.
  apply (list_portal_notifications_newest Examples.three_rows_site 2 1).
  - vm_compute. reflexivity.
  - lia.
Defined.

End NotificationsHandlersFacts.


(** ** The guard on assignments, and what a manager sees *)

Module AssignToMoreFacts.
Import Frappe AssignTo FrappeFacts.

(** X7: the guard on ToDo creation lets a ToDo pass exactly when it links
    to no document or has no owner, or the actor is privileged, or the actor
    is not a Sales User and, if a Sales Manager, the owner is in the actor's
    roster. The actor is the ToDo's [assigned_by], else the session user. *)
Theorem validate_todo_assignment_policy (s : site) (doc : gmap string value) :
  let actor := or_session s (text doc "assigned_by") in
  validate_todo_assignment s doc = Ok tt
  ↔ truthy (get doc "reference_type") = false
    ∨ truthy (get doc "reference_name") = false
    ∨ truthy (get doc "owner") = false
    ∨ _is_privileged s actor = true
    ∨ (_is_sales_user s actor = false
       ∧ (_is_sales_manager s actor = false
          ∨ value_in_set (get doc "owner") (_team_members_of s actor) = true)).
Proof.
  intros actor. unfold validate_todo_assignment. fold actor.
  destruct (truthy (get doc "reference_type")); simpl; [|tauto].
  destruct (truthy (get doc "reference_name")); simpl; [|tauto].
  destruct (truthy (get doc "owner")); simpl; [|tauto].
  destruct (_is_privileged s actor); [tauto|].
  destruct (_is_sales_user s actor).
  { split; [done|]. intros [?|[?|[?|[?|[? _]]]]]; done. }
  destruct (_is_sales_manager s actor); [|tauto].
  destruct (value_in_set _ _); [tauto|].
  split; [done|]. intros [?|[?|[?|[?|[_ [?|?]]]]]]; done.
Qed.

(** X8: the handler and the guard do not apply the same rule. An actor who
    is a Sales Manager and a Sales User passes the role check of
    [assign_lead] for users of the roster, and is refused by the guard for
    every ToDo that links to a document; an actor with neither role (and not
    privileged) is refused by [assign_lead] and passes the guard. *)
Theorem handler_and_guard_disagree (s : site) (doc : gmap string value)
    (users : list string) :
  let actor := or_session s (text doc "assigned_by") in
  truthy (get doc "reference_type") = true →
  truthy (get doc "reference_name") = true →
  truthy (get doc "owner") = true →
  _is_privileged s actor = false →
  (_is_sales_manager s actor = true → _is_sales_user s actor = true →
     Forall (λ u, u ∈ _team_members_of s actor) users →
     check_actor s actor users = Ok tt
     ∧ validate_todo_assignment s doc
       = Raise (PermissionError "Sales Users cannot assign"))
  ∧ (_is_sales_manager s actor = false → _is_sales_user s actor = false →
       check_actor s actor users
       = Raise (PermissionError "You are not allowed to assign")
       ∧ validate_todo_assignment s doc = Ok tt).
Proof.
  intros actor Hrt Hrn Howner Hpriv.
  unfold validate_todo_assignment, check_actor. fold actor.
  rewrite Hrt, Hrn, Howner, Hpriv. simpl. split.
  - intros -> -> Hin. split; [|done].
    apply AssignToFacts.illegal_users_nil in Hin. by rewrite Hin.
  - by intros -> ->.
Qed.

Lemma handler_and_guard_disagree_witness :
  check_actor MoreExamples.both_roles_site "mona@example.com"
              ["bassam@example.com"] = Ok tt
  ∧ validate_todo_assignment MoreExamples.both_roles_site
                             MoreExamples.todo_for_bassam
    = Raise (PermissionError "Sales Users cannot assign").
Proof.
  pose proof (handler_and_guard_disagree MoreExamples.both_roles_site
                MoreExamples.todo_for_bassam ["bassam@example.com"]) as Hrule.
  cbv zeta in Hrule.
  assert (truthy (get MoreExamples.todo_for_bassam "reference_type") = true)
    as Hrt by reflexivity.
  assert (truthy (get MoreExamples.todo_for_bassam "reference_name") = true)
    as Hrn by reflexivity.
  assert (truthy (get MoreExamples.todo_for_bassam "owner") = true)
    as Howner by reflexivity.
  destruct (Hrule Hrt Hrn Howner eq_refl) as [Hboth _].
  apply Hboth; [reflexivity|reflexivity|]. repeat constructor.
Defined.

(** X9: [assign_lead] is all or nothing, whoever calls. Every failure is a
    permission error and leaves the site as it was; a success needs the read
    permission, answers with the listed non-empty users and has sent exactly
    one request per such user, in order, and nothing else of the site has
    changed. *)
Theorem assign_lead_atomic (s : site) (doctype name : string)
    (users : option (list string)) (description : option string) :
  let listed := List.filter PyStr.truthy (default [] users) in
  match assign_lead s doctype name users description with
  | (Raise (PermissionError _), s') => s' = s
  | (Raise _, _) => False
  | (Ok (ok, assigned_to), s') =>
      ok = true ∧ assigned_to = listed
      ∧ can_read s doctype name = true
      ∧ s' = set_assignments s
               (assignments s
                ++ (request_of doctype name description <$> listed))
  end.
Proof.
  intros listed. unfold assign_lead, check_actor. fold listed.
  destruct (can_read s doctype name); simpl; [|done].
  destruct (_is_privileged s (session_user s)).
  { by rewrite AssignToFacts.add_assignments. }
  destruct (_is_sales_manager s (session_user s)); [|done].
  destruct (illegal_users _ listed); [|done].
  by rewrite AssignToFacts.add_assignments.
Qed.

Lemma find_elem_of {A} (f : A → bool) (l : list A) (x : A) :
  List.find f l = Some x → x ∈ l ∧ f x = true.
Proof.
  intros Hfind. apply find_some in Hfind as [Hin Hf].
  by apply list_elem_of_In in Hin.
Qed.

Lemma truthy_name_Some (v : value) (n : string) :
  truthy_name v = Some n → v = VStr n ∧ n ≠ "".
Proof.
  destruct v as [| | |u|]; simpl; try done.
  destruct u; simpl; [done|]. by intros [= <-].
Qed.

(** Whoever is on the roster a manager may assign to is a member of a team
    the manager leads, in the sense of the visibility rule. *)
Lemma roster_members_are_led (s : site) (user member : string) :
  member ∈ _team_members_of s user →
  LeadsPermissions.leads s user member ∧ member ≠ "".
Proof.
  unfold _team_members_of.
  destruct (List.find _ (teams s)) as [t|] eqn:Hteam; [|set_solver].
  apply find_elem_of in Hteam as [Ht Hleader].
  destruct (truthy_name (get t "name")) as [team|] eqn:Hname; [|set_solver].
  apply truthy_name_Some in Hname as [Hname _].
  change (LeadsPermissions._member_user_col s) with (_member_user_col s).
  unfold LeadsPermissions.leads.
  change (LeadsPermissions._member_user_col s) with (_member_user_col s).
  destruct (_member_user_col s) as [member_dt member_col]. simpl.
  intros Hin. apply elem_of_list_to_set, list_elem_of_omap in Hin
    as (v & Hv & Hmember).
  apply truthy_name_Some in Hmember as [-> Hne].
  apply list_elem_of_fmap in Hv as (m & Hcol & Hm).
  apply list_elem_of_filter in Hm as [[Hparent _] Hm].
  split; [|done]. exists t, m, team.
  apply LeadsPermissionsFacts.col_is_true in Hleader, Hparent.
  apply LeadsPermissionsFacts.get_VStr in Hname.
  symmetry in Hcol. apply LeadsPermissionsFacts.get_VStr in Hcol. done.
Qed.

(** X10: a manager sees every Lead that carries an open assignment of
    someone on the roster the manager may assign to: for a user who is
    neither empty nor Guest, such a row is visible in the list. *)
Theorem roster_assignments_are_visible (s : site) (user member lname : string)
    (lead : gmap string value) :
  PyStr.truthy user = true → user ≠ "Guest" →
  lead !! "name" = Some (VStr lname) →
  member ∈ _team_members_of s user →
  LeadsPermissions.holds_open_assignment s "CRM Lead" lname member →
  LeadsPermissions.visible s user lead = true.
Proof.
  intros Huser Hguest Hname Hroster Hopen.
  apply roster_members_are_led in Hroster as [Hled _].
  unfold LeadsPermissions.visible,
    LeadsPermissions.get_permission_query_conditions.
  rewrite (LeadsPermissionsFacts.not_guest user Huser Hguest).
  case_bool_decide; [done|].
  pose proof (LeadsPermissionsFacts.assigned_team_spec s lead lname user Hname)
    as Hteam.
  destruct (LeadsPermissions._member_user_col s) as [member_dt member_col].
  cbn [LeadsPermissions.holds]. apply orb_true_iff. right.
  apply Hteam. by exists member.
Qed.

Lemma roster_assignments_are_visible_witness :
  LeadsPermissions.visible (Examples.manager_site true) "mona@example.com"
                           {[ "name" := VStr "LEAD-1" ]} = true.
Proof.
  apply (roster_assignments_are_visible (Examples.manager_site true)
           "mona@example.com" "bassam@example.com" "LEAD-1").
  - reflexivity.
  - discriminate.
  - reflexivity.
  - vm_compute. reflexivity.
  - exists (Examples.open_todo "CRM Lead" "LEAD-1" "bassam@example.com").
    split; [|done]. unfold Examples.manager_site, Examples.site_with. simpl.
    set_solver.
Defined.

End AssignToMoreFacts.


(** ** The list view and the document check *)

Module LeadsPermissionsMoreFacts.
Import Frappe LeadsPermissions FrappeFacts LeadsPermissionsFacts.

(** X11: what the list shows, the form opens. When no roster row carries an
    empty user, a Lead row visible to a user in the list passes the
    document check of that user, for every permission type. *)
Theorem visible_then_permitted (s : site) (user lname ptype : string)
    (lead : gmap string value) (doc : document) :
  lead !! "name" = Some (VStr lname) →
  doctype doc = "CRM Lead" → name doc = lname →
  (∀ member, leads s user member → member ≠ "") →
  visible s user lead = true →
  has_permission s doc ptype user = true.
Proof.
  intros Hname Hdt Hdn Hmembers.
  unfold visible, get_permission_query_conditions, has_permission.
  destruct (negb (PyStr.truthy user) || String.eqb user "Guest"); [done|].
  case_bool_decide as Hsm; [done|].
  pose proof (assigned_team_spec s lead lname user Hname) as Hteam.
  destruct (_member_user_col s) as [member_dt member_col] eqn:Hcol.
  cbn [holds]. rewrite orb_true_iff. rewrite Hdt, Hdn.
  intros [Hself|Hled].
  - case_bool_decide; [done|].
    apply get_VStr in Hname. rewrite Hname in Hself.
    cbn [holds] in Hself. by rewrite Hself.
  - case_bool_decide; [done|].
    destruct (existsb _ (todos s)); [done|].
    destruct (existsb _ (led_members s user)); [done|].
    rewrite guarded_query. apply member_todo_spec.
    apply Hteam in Hled as (member & Hleads & Hopen).
    exists member. split; [by apply Hmembers|]. by split.
Qed.

Lemma visible_then_permitted_witness :
  has_permission (Examples.manager_site true)
                 {| doctype := "CRM Lead"; name := "LEAD-1"; _assign := None |}
                 "write" "mona@example.com" = true.
Proof.
  apply (visible_then_permitted (Examples.manager_site true)
           "mona@example.com" "LEAD-1" "write" {[ "name" := VStr "LEAD-1" ]}).
  - reflexivity.
  - reflexivity.
  - reflexivity.
  - intros member (t & m & team & _ & Hm & _ & _ & _ & Hcol) ->.
    unfold Examples.manager_site, Examples.site_with in Hm. simpl in Hm.
    apply elem_of_cons in Hm as [->|Hm]; [done|].
    apply list_elem_of_singleton in Hm as ->. done.
  - reflexivity.
Defined.

(** X12: an empty user and Guest are shut out before anything is looked at:
    no Lead row is visible to them and no document passes their check,
    whatever their roles, the assignments and the inline lists. *)
Theorem guest_is_shut_out (s : site) (user ptype : string)
    (lead : gmap string value) (doc : document) :
  user = "" ∨ user = "Guest" →
  get_permission_query_conditions s user = Some Never
  ∧ visible s user lead = false
  ∧ has_permission s doc ptype user = false.
Proof.
  intros [-> | ->]; by repeat split.
Qed.

Lemma guest_is_shut_out_witness :
  has_permission (Examples.manager_site true)
                 {| doctype := "CRM Lead"; name := "LEAD-2";
                    _assign := Some ["Guest"] |}
                 "read" "Guest" = false.
Proof.
  apply (guest_is_shut_out (Examples.manager_site true) "Guest" "read" ∅).
  by right.
Defined.

End LeadsPermissionsMoreFacts.


(** ** The other task handlers *)

Module TaskHandlersFacts.
Import Frappe MobileApi TaskHandlers FrappeFacts.

Lemma set_if_given_self (k : string) (v : value) (doc : gmap string value) :
  get (set_if_given k v doc) k = given_or v (get doc k).
Proof.
  unfold get. destruct v; simpl; by rewrite ?lookup_insert_eq.
Qed.

Lemma set_if_given_other (k k' : string) (v : value)
    (doc : gmap string value) :
  k ≠ k' → get (set_if_given k v doc) k' = get doc k'.
Proof.
  intros Hk. unfold get. destruct v; simpl; by rewrite ?lookup_insert_ne.
Qed.

Lemma set_if_has_other (s : site) (k k' : string) (v : value)
    (doc : gmap string value) :
  k ≠ k' → get (set_if_has s k v doc) k' = get doc k'.
Proof.
  intros Hk. unfold set_if_has. destruct (hasattr s doc k); [|done].
  by apply set_if_given_other.
Qed.

Lemma load_task_Ok (s : site) (task_name : value) (n : string)
    (task : gmap string value) :
  load_task s task_name = Ok (n, task) →
  task_name = VStr n ∧ get_task_doc s (VStr n) = Some task
  ∧ get task "name" = VStr n.
Proof.
  unfold load_task. destruct task_name as [| | |m|]; try done.
  destruct (get_task_doc s (VStr m)) as [t|] eqn:Hdoc; [|done].
  intros [= <- <-]. split; [done|]. split; [done|].
  simpl in Hdoc. apply find_some in Hdoc as [_ Hname].
  apply bool_decide_eq_true in Hname. unfold get. by rewrite Hname.
Qed.

Lemma get_stamped (k : string) (v : value) (doc : gmap string value) :
  k ≠ "modified" → get (<["modified" := v]> doc) k = get doc k.
Proof. intros Hk. unfold get. by rewrite lookup_insert_ne. Qed.

(** The name is not edited. *)
Lemma apply_edits_lookup (s : site)
    (title status priority start_date task_type description assigned_to
     due_date : value) (task : gmap string value) :
  get (apply_edits s title status priority start_date task_type description
                   assigned_to due_date task) "name"
  = get task "name".
Proof.
  unfold apply_edits.
  by rewrite !set_if_has_other, !set_if_given_other by done.
Qed.

Lemma apply_edits_fields (s : site)
    (title status priority start_date task_type description assigned_to
     due_date : value) (task : gmap string value) :
  let edited := apply_edits s title status priority start_date task_type
                            description assigned_to due_date task in
  get edited "status" = given_or status (get task "status")
  ∧ get edited "priority" = given_or priority (get task "priority")
  ∧ get edited "start_date" = given_or start_date (get task "start_date").
Proof.
  unfold apply_edits. simpl. rewrite !set_if_has_other by done.
  repeat split.
  - rewrite !(set_if_given_other _ "status") by done.
    by rewrite set_if_given_self, set_if_given_other.
  - rewrite !(set_if_given_other _ "priority") by done.
    by rewrite set_if_given_self, !set_if_given_other.
  - rewrite !(set_if_given_other _ "start_date") by done.
    by rewrite set_if_given_self, !set_if_given_other.
Qed.

(** X13: a successful [edit_task] returns, for status, priority and start
    date, the argument when one is given (an empty string counts as given)
    and the stored value otherwise; the task keeps its name; and every
    stored task of another name is left as it was. *)
Theorem edit_task_applies (s s' : site)
    (task_id name title status priority start_date task_type description
     assigned_to due_date : value) (c : compact) :
  edit_task s task_id name title status priority start_date task_type
            description assigned_to due_date = (Ok c, s') →
  ∃ n task,
    por task_id name = VStr n ∧ get_task_doc s (VStr n) = Some task
    ∧ c_name c = VStr n
    ∧ c_status c = given_or status (get task "status")
    ∧ c_priority c = given_or priority (get task "priority")
    ∧ c_start_date c = given_or start_date (get task "start_date")
    ∧ Forall2 (λ r r', r !! "name" ≠ Some (VStr n) → r' = r)
              (tasks s) (tasks s').
Proof.
  unfold edit_task. destruct (truthy (por task_id name)); simpl; [|done].
  destruct (load_task s (por task_id name)) as [[n task]|] eqn:Hload; [|done].
  apply load_task_Ok in Hload as (Hn & Hdoc & Hname).
  unfold save_task. destruct (task_insert_error s _); [done|].
  intros [= <- <-]. exists n, task.
  split; [done|]. split; [done|].
  cbn [get_compact_task c_name c_status c_priority c_start_date].
  rewrite !get_stamped by done.
  rewrite (apply_edits_lookup s title status priority start_date task_type
             description assigned_to due_date task).
  destruct (apply_edits_fields s title status priority start_date task_type
              description assigned_to due_date task) as (-> & -> & ->).
  split; [done|]. split; [done|]. split; [done|]. split; [done|].
  cbn [tasks set_tasks].
  apply Forall2_fmap_r, Forall_Forall2_diag, Forall_forall.
  intros r _ Hother. unfold col_is. by rewrite bool_decide_eq_false_2.
Qed.

Lemma edit_task_applies_witness :
  ∃ c s', edit_task Examples.tasks_site (VStr "TASK-1") VNull VNull (VStr "")
                    VNull VNull VNull VNull VNull VNull = (Ok c, s')
          ∧ c_status c = VStr "" ∧ c_priority c = VStr "High".
Proof.
  destruct (edit_task Examples.tasks_site (VStr "TASK-1") VNull VNull (VStr "")
                      VNull VNull VNull VNull VNull VNull)
    as [[c|e] s'] eqn:Hedit; [|vm_compute in Hedit; discriminate].
  exists c, s'. split; [done|].
  destruct (edit_task_applies _ _ _ _ _ _ _ _ _ _ _ _ _ Hedit)
    as (n & task & Hn & Hdoc & _ & -> & -> & _).
  injection Hn as <-. vm_compute in Hdoc. injection Hdoc as <-.
  split; reflexivity.
Defined.

(** X14: [edit_task] and [update_status] change nothing when they raise.
    Without a task id and name they raise the validation error "Task ID is
    required"; [update_status] without a status raises "Status is
    required"; for a name no task has, both raise a not-found error. *)
Theorem task_edits_fail_clean (s : site)
    (task_id name title status priority start_date task_type description
     assigned_to due_date : value) :
  (∀ e s', edit_task s task_id name title status priority start_date
                     task_type description assigned_to due_date
           = (Raise e, s') → s' = s)
  ∧ (∀ e s', update_status s task_id name status = (Raise e, s') → s' = s)
  ∧ (truthy (por task_id name) = false →
       edit_task s task_id name title status priority start_date task_type
                 description assigned_to due_date
       = (Raise (ValidationError "Task ID is required"), s)
       ∧ update_status s task_id name status
         = (Raise (ValidationError "Task ID is required"), s))
  ∧ (truthy (por task_id name) = true → truthy status = false →
       update_status s task_id name status
       = (Raise (ValidationError "Status is required"), s))
  ∧ (truthy (por task_id name) = true →
     get_task_doc s (por task_id name) = None →
       edit_task s task_id name title status priority start_date task_type
                 description assigned_to due_date
       = (Raise (DoesNotExistError msg_task_not_found), s)
       ∧ (truthy status = true →
          update_status s task_id name status
          = (Raise (DoesNotExistError msg_task_not_found), s))).
Proof.
  unfold edit_task, update_status, save_task.
  split; [|split; [|split; [|split]]].
  - intros e s'. destruct (truthy (por task_id name)); simpl;
      [|by intros [= _ <-]].
    destruct (load_task s _) as [[n task]|]; [|by intros [= _ <-]].
    destruct (task_insert_error s _); [by intros [= _ <-]|done].
  - intros e s'. destruct (truthy (por task_id name)); simpl;
      [|by intros [= _ <-]].
    destruct (truthy status); simpl; [|by intros [= _ <-]].
    destruct (load_task s _) as [[n task]|]; [|by intros [= _ <-]].
    destruct (task_insert_error s _); [by intros [= _ <-]|done].
  - by intros ->.
  - by intros -> ->.
  - intros -> Hnone. simpl.
    assert (load_task s (por task_id name)
            = Raise (DoesNotExistError msg_task_not_found)) as ->.
    { unfold load_task. destruct (por task_id name); try done.
      by rewrite Hnone. }
    split; [done|]. by intros ->.
Qed.

Lemma task_edits_fail_clean_witness :
  update_status Examples.tasks_site (VStr "TASK-9") VNull (VStr "Done")
  = (Raise (DoesNotExistError msg_task_not_found), Examples.tasks_site).
Proof.
  destruct (task_edits_fail_clean Examples.tasks_site (VStr "TASK-9") VNull
              VNull (VStr "Done") VNull VNull VNull VNull VNull VNull)
    as (_ & _ & _ & _ & Hmissing).
  destruct Hmissing as [_ Hupdate]; [reflexivity|reflexivity|].
  by apply Hupdate.
Defined.

(** X15: [update_status] with a status is [edit_task] with that status as
    its only field: same answer, same site. *)
Theorem update_status_is_edit_task (s : site) (task_id name status : value) :
  truthy status = true →
  update_status s task_id name status
  = edit_task s task_id name VNull status VNull VNull VNull VNull VNull VNull.
Proof.
  intros Hstatus. unfold update_status, edit_task, apply_edits, set_if_has.
  rewrite Hstatus. simpl.
  destruct (negb (truthy (por task_id name))); [done|].
  destruct (load_task s _) as [[n task]|]; [|done].
  repeat match goal with
         | |- context [if ?b then ?x else ?x] =>
             replace (if b then x else x) with x by (by destruct b)
         end.
  by destruct status.
Qed.

Lemma update_status_is_edit_task_witness :
  update_status Examples.tasks_site (VStr "TASK-1") VNull (VStr "Done")
  = edit_task Examples.tasks_site (VStr "TASK-1") VNull VNull (VStr "Done")
              VNull VNull VNull VNull VNull VNull.
Proof.
  apply (update_status_is_edit_task Examples.tasks_site). reflexivity.
Defined.




(** X17: the today bucket of [main_page_buckets] is the list of
    [home_tasks] for the same number, which both report; and that number,
    when positive, bounds each of the three buckets from above. *)
Theorem buckets_and_home (s : site) (n : Z) :
  b_today (main_page_buckets s n) = (home_tasks s n).1
  ∧ b_min_each (main_page_buckets s n) = (home_tasks s n).2
  ∧ ((0 < b_min_each (main_page_buckets s n))%Z →
     (Z.of_nat (length (b_today (main_page_buckets s n)))
      ≤ b_min_each (main_page_buckets s n))%Z
     ∧ (Z.of_nat (length (b_late (main_page_buckets s n)))
        ≤ b_min_each (main_page_buckets s n))%Z
     ∧ (Z.of_nat (length (b_upcoming (main_page_buckets s n)))
        ≤ b_min_each (main_page_buckets s n))%Z).
Proof.
  split; [done|]. split; [done|].
  unfold main_page_buckets, get_all_tasks.
  cbn [b_today b_late b_upcoming b_min_each]. intros Hpos.
  rewrite !length_fmap, !length_take. lia.
Qed.

Lemma buckets_and_home_witness :
  (Z.of_nat (length (b_late (main_page_buckets Examples.tasks_site 2))) ≤ 2)%Z.
Proof.
  destruct (buckets_and_home Examples.tasks_site 2) as (_ & _ & Hbound).
  destruct Hbound as (_ & Hlate & _); [reflexivity|]. exact Hlate.
Defined.

End TaskHandlersFacts.


(** ** Hosts, OAuth settings and filters *)

Module MobileApiMoreFacts.
Import Frappe MobileApi TaskHandlers FrappeFacts.

(** *** Python strings *)

Lemma lower_char_twice (c : ascii) :
  PyStr.lower_char (PyStr.lower_char c) = PyStr.lower_char c.
Proof. by destruct c as [[] [] [] [] [] [] [] []]. Qed.

Lemma lower_twice (t : string) : PyStr.lower (PyStr.lower t) = PyStr.lower t.
Proof.
  induction t as [|c t IH]; [done|]. simpl. by rewrite lower_char_twice, IH.
Qed.

Lemma lower_char_colon (c : ascii) :
  Ascii.eqb (PyStr.lower_char c) ":" = Ascii.eqb c ":".
Proof. by destruct c as [[] [] [] [] [] [] [] []]. Qed.

Lemma lower_app (a b : string) :
  PyStr.lower (a ++ b) = PyStr.lower a ++ PyStr.lower b.
Proof. induction a as [|c a IH]; [done|]. simpl. by rewrite IH. Qed.

Lemma contains_colon_cons (c : ascii) (t : string) :
  PyStr.contains ":" (String c t) = Ascii.eqb ":" c || PyStr.contains ":" t.
Proof. simpl. by rewrite andb_true_r. Qed.

(** The part before the first colon. *)
Lemma split_head_colon (a b : string) :
  PyStr.contains ":" a = false →
  PyStr.split_head ":" (PyStr.lower (a ++ String ":" b)) = PyStr.lower a.
Proof.
  unfold PyStr.split_head. induction a as [|c a IH]; [done|].
  rewrite contains_colon_cons, orb_false_iff. intros [Hc Ha].
  simpl. rewrite lower_char_colon, Ascii.eqb_sym, Hc.
  specialize (IH Ha).
  destruct (PyStr.split_on ":" (PyStr.lower (a ++ String ":" b)));
    [|by rewrite IH].
  destruct a; simpl in IH; [|done]. done.
Qed.

Lemma split_head_no_colon (a : string) :
  PyStr.contains ":" a = false →
  PyStr.split_head ":" (PyStr.lower a) = PyStr.lower a.
Proof.
  unfold PyStr.split_head. induction a as [|c a IH]; [done|].
  rewrite contains_colon_cons, orb_false_iff. intros [Hc Ha].
  simpl. rewrite lower_char_colon, Ascii.eqb_sym, Hc.
  specialize (IH Ha).
  destruct (PyStr.split_on ":" (PyStr.lower a)); [|by rewrite IH].
  by destruct a.
Qed.

(** X18: the host check ignores case and port: a host and its lower-cased
    form are normalised alike, and so are a host without a colon and that
    host followed by a colon and anything. *)
Theorem normalize_host_case_and_port (host port : string) :
  normalize_host (PyStr.lower host) = normalize_host host
  ∧ (PyStr.contains ":" host = false →
     normalize_host (host ++ ":" ++ port) = normalize_host host).
Proof.
  unfold normalize_host. split; [by rewrite lower_twice|].
  intros Hcolon. change (":" ++ port) with (String ":" port).
  by rewrite split_head_colon, split_head_no_colon.
Qed.

Lemma normalize_host_case_and_port_witness :
  normalize_host ("CRM.Example.com" ++ ":" ++ "8443")
  = normalize_host "CRM.Example.com".
Proof.
  apply (normalize_host_case_and_port "CRM.Example.com" "8443"). reflexivity.
Defined.

(** *** The host of a request *)

(** X19: a forwarded host wins over Host. When a request carries a
    non-empty X-Forwarded-Host, the outcome of the host check is the same
    whatever its Host header is. *)
Theorem forwarded_host_wins (l : local) (headers : gmap string string)
    (forwarded host : string) :
  request l = Some headers →
  headers !! "X-Forwarded-Host" = Some forwarded → forwarded ≠ "" →
  _validate_host (set_request l (Some (<["Host" := host]> headers)))
  = _validate_host l.
Proof.
  intros Hreq Hfwd Hne. unfold _validate_host.
  cbn [request set_request]. rewrite Hreq.
  assert (request_host (<["Host" := host]> headers) = request_host headers)
    as ->.
  { unfold request_host, header. rewrite lookup_insert_ne by done.
    rewrite Hfwd. by destruct forwarded. }
  done.
Qed.

Lemma forwarded_host_wins_witness :
  _validate_host
    (set_request
       (set_request (Examples.oauth_local "crm.example.com" ∅)
          (Some {[ "X-Forwarded-Host" := "crm.example.com";
                   "Host" := "crm.example.com" ]}))
       (Some (<["Host" := "facebook.com"]>
                {[ "X-Forwarded-Host" := "crm.example.com";
                   "Host" := "crm.example.com" ]})))
  = _validate_host
      (set_request (Examples.oauth_local "crm.example.com" ∅)
         (Some {[ "X-Forwarded-Host" := "crm.example.com";
                  "Host" := "crm.example.com" ]})).
Proof.
  apply (forwarded_host_wins _ _ "crm.example.com" "facebook.com").
  - reflexivity.
  - reflexivity.
  - discriminate.
Defined.



(** *** The OAuth settings *)

Lemma set_settings_same (l : local) (st : oauth_settings) :
  settings l = Some st → set_settings l st (oauth_clients l) = l.
Proof. intros Hst. destruct l. simpl in *. by subst. Qed.

(** X21: providing the OAuth settings is idempotent. Once
    [_ensure_mobile_oauth_settings] has returned settings with a client id,
    a second call returns the same settings and changes nothing: no second
    OAuth client is created. A call creates at most one client. *)
Theorem ensure_settings_idempotent (l l' : local) (st : oauth_settings) :
  _ensure_mobile_oauth_settings l = (Ok st, l') →
  client_id st ≠ "" →
  _ensure_mobile_oauth_settings l' = (Ok st, l')
  ∧ (length (oauth_clients l') ≤ length (oauth_clients l) + 1)%nat.
Proof.
  unfold _ensure_mobile_oauth_settings.
  destruct (site_name l) as [site|] eqn:Hsite; [|done].
  destruct (negb (PyStr.truthy site)) eqn:Htruthy; [done|].
  destruct (match site_path l with
            | Some p => PyStr.truthy p && negb (site_path_exists l)
            | None => false
            end) eqn:Hpath; [done|].
  destruct (negb (match db_name l with
                  | Some n => PyStr.truthy n
                  | None => false
                  end && db_alive l)) eqn:Hdb; [done|].
  destruct (negb (bool_decide ("Mobile OAuth Settings" ∈ doctypes l)))
    eqn:Hdt; [done|].
  cbn [doctypes set_settings generated_client_id oauth_clients].
  destruct (PyStr.truthy (client_id (default _ (settings l)))) eqn:Hid.
  - intros [= <- <-] _.
    cbn [site_name site_path site_path_exists db_name db_alive doctypes
         settings set_settings oauth_clients].
    rewrite Hsite, Htruthy, Hpath, Hdb, Hdt. simpl. rewrite Hid.
    split; [done|lia].
  - destruct (negb (bool_decide ("OAuth Client" ∈ doctypes l))); [done|].
    intros [= <- <-] Hne.
    cbn [site_name site_path site_path_exists db_name db_alive doctypes
         settings set_settings oauth_clients client_id].
    rewrite Hsite, Htruthy, Hpath, Hdb, Hdt. simpl.
    cbn [client_id] in Hne. apply MobileApiFacts.truthy_nonempty in Hne.
    rewrite Hne. split; [done|]. rewrite length_app. simpl. lia.
Qed.

Lemma ensure_settings_idempotent_witness :
  _ensure_mobile_oauth_settings (Examples.oauth_local "crm.example.com" ∅)
  = (Ok {| client_id := "abc123"; scope := "all openid";
           redirect_uri := "app.trust://oauth2redirect" |},
     Examples.oauth_local "crm.example.com" ∅).
Proof.
  apply (ensure_settings_idempotent (Examples.oauth_local "crm.example.com" ∅)).
  - reflexivity.
  - discriminate.
Defined.

(** X22: a configuration that [get_oauth_config] returns is complete: its
    client id, scope and redirect URI are all non-empty. The client id is
    one the settings hold; scope and redirect URI fall back to "all openid"
    and the app's redirect URI. *)
Theorem get_oauth_config_complete (l l' : local) (cfg : oauth_settings) :
  get_oauth_config l = (Ok cfg, l') →
  client_id cfg ≠ "" ∧ scope cfg ≠ "" ∧ redirect_uri cfg ≠ ""
  ∧ ∃ st, _ensure_mobile_oauth_settings l = (Ok st, l')
          ∧ client_id cfg = client_id st
          ∧ (scope st ≠ "" → scope cfg = scope st)
          ∧ (scope st = "" → scope cfg = "all openid")
          ∧ (redirect_uri st ≠ "" → redirect_uri cfg = redirect_uri st)
          ∧ (redirect_uri st = "" →
             redirect_uri cfg = "app.trust://oauth2redirect").
Proof.
  unfold get_oauth_config.
  destruct (_validate_host l); [|done].
  destruct (_ensure_mobile_oauth_settings l) as [[st|e] l0]; [|done].
  destruct (PyStr.truthy (client_id st)) eqn:Hid; simpl; [|done].
  intros [= <- <-]. cbn [client_id scope redirect_uri].
  apply MobileApiFacts.truthy_nonempty in Hid.
  split; [done|]. split; [by destruct (scope st)|].
  split; [by destruct (redirect_uri st)|].
  exists st. split; [done|]. split; [done|].
  repeat split; intros H; try (by destruct (scope st));
    try (by destruct (redirect_uri st)); by rewrite H.
Qed.

Lemma get_oauth_config_complete_witness :
  ∃ cfg l', get_oauth_config (Examples.oauth_local "crm.example.com" ∅)
            = (Ok cfg, l')
            ∧ client_id cfg ≠ "" ∧ scope cfg ≠ "" ∧ redirect_uri cfg ≠ "".
Proof.
  destruct (get_oauth_config (Examples.oauth_local "crm.example.com" ∅))
    as [[cfg|e] l'] eqn:Hcfg; [|vm_compute in Hcfg; discriminate].
  exists cfg, l'. split; [done|].
  destruct (get_oauth_config_complete _ _ _ Hcfg) as (? & ? & ? & _). done.
Defined.

(** *** Filters *)

Lemma lstrip_head (t : string) :
  PyStr.lstrip t = ""
  ∨ ∃ c r, PyStr.lstrip t = String c r ∧ PyStr.is_space c = false.
Proof.
  induction t as [|c t IH]; [by left|]. simpl.
  destruct (PyStr.is_space c) eqn:Hc; [done|]. right. eauto.
Qed.

Lemma rstrip_twice (t : string) :
  PyStr.rstrip (PyStr.rstrip t) = PyStr.rstrip t.
Proof.
  induction t as [|c t IH]; [done|]. simpl.
  destruct (PyStr.is_space c && PyStr.is_empty (PyStr.rstrip t)) eqn:Hc;
    [done|].
  simpl. by rewrite IH, Hc.
Qed.

(** [strip] is idempotent. *)
Lemma strip_twice (t : string) :
  PyStr.strip (PyStr.strip t) = PyStr.strip t.
Proof.
  unfold PyStr.strip. destruct (lstrip_head t) as [->|(c & r & -> & Hc)].
  - done.
  - cbn [PyStr.rstrip]. rewrite Hc. cbn [andb PyStr.lstrip]. rewrite Hc.
    cbn [PyStr.rstrip]. rewrite Hc. cbn [andb]. by rewrite rstrip_twice.
Qed.

Lemma csv_values (text : string) :
  Forall (λ x, x ≠ "" ∧ PyStr.strip x = x) (csv text).
Proof.
  unfold csv. apply Forall_forall. intros x Hx.
  apply list_elem_of_In, filter_In in Hx as [Hx Htruthy].
  apply list_elem_of_In, list_elem_of_fmap in Hx as (piece & -> & _).
  split; [by apply MobileApiFacts.truthy_nonempty|apply strip_twice].
Qed.

Lemma in_filter_shape (field : string) (v : value) (f : db_filter) :
  f ∈ in_filter field v →
  ∃ vs, f = FilterIn field vs ∧ vs ≠ []
        ∧ Forall (λ x, x ≠ "" ∧ PyStr.strip x = x) vs.
Proof.
  unfold in_filter. destruct v as [| | |text|]; try by intros ?%elem_of_nil.
  destruct (PyStr.truthy text); [|by intros ?%elem_of_nil].
  pose proof (csv_values text) as Hvalues.
  destruct (csv text) as [|x vs]; [by intros ?%elem_of_nil|].
  intros ->%list_elem_of_singleton. eauto.
Qed.

(** X23: the filters [filter_tasks] sends are well formed: a date filter is
    on [start_date], with [>=] or [<=] and a non-empty value; a list filter
    is on [priority] or [status], and its list is never empty and holds
    only non-empty values without surrounding white space. *)
Theorem build_filters_shape (date_from date_to importance status : value) :
  Forall (λ f, match f with
               | FilterCmp field op v =>
                   field = "start_date" ∧ (op = ">=" ∨ op = "<=")
                   ∧ truthy v = true
               | FilterIn field vs =>
                   (field = "priority" ∨ field = "status") ∧ vs ≠ []
                   ∧ Forall (λ x, x ≠ "" ∧ PyStr.strip x = x) vs
               end)
         (build_filters date_from date_to importance status).
Proof.
  unfold build_filters. rewrite !Forall_app. repeat split.
  - destruct (truthy date_from) eqn:Hd; [|constructor].
    apply Forall_singleton. split; [done|]. split; [by left|done].
  - destruct (truthy date_to) eqn:Hd; [|constructor].
    apply Forall_singleton. split; [done|]. split; [by right|done].
  - apply Forall_forall. intros f Hf.
    apply in_filter_shape in Hf as (vs & -> & ? & ?).
    split; [by left|by split].
  - apply Forall_forall. intros f Hf.
    apply in_filter_shape in Hf as (vs & -> & ? & ?).
    split; [by right|by split].
Qed.

(** *** The compact task *)




End MobileApiMoreFacts.
